(** * The shopping-cart store (src/components/store/store.jsx)

    A shallow embedding of the zustand store [useStore]: the catalog, the cart,
    the running total, the four actions and the [persist] middleware that
    mirrors the state into [localStorage] under the key "carrito-compras".

    Conventions of the embedding.
    - Prices and totals are JavaScript numbers, that is IEEE-754 binary64
      values: they are modelled by [spec_float] with the library's
      [SFadd 53 1024], so rounding, infinities and NaN are those of the
      code. Product ids are integers ([Z]).
    - A cart slot holds whatever [Array.prototype.find] returned, so it is a
      product, [undefined] (lookup miss) or, after a reload from JSON, [null].
    - Reading a property of [undefined] or [null] throws a [TypeError]; this
      is kept as an explicit completion ([Normal] / [Throw]).
    - The text kept in [localStorage] is represented by the JSON document it
      denotes. *)

From Stdlib Require Import ZArith List Bool Lia.
From Stdlib Require Import Floats.SpecFloat.
From stdpp Require Import base gmap strings list.
Import ListNotations.

Local Open Scope string_scope.
Local Open Scope list_scope.
Local Open Scope Z_scope.

(** ** Numbers *)

(** The double nearest to an integer (round to nearest, ties to even). *)
Definition float_of_Z (n : Z) : spec_float := binary_normalize 53 1024 n 0 false.

(** What a numeric field can hold: a number, or [null] once a reload has
    read back a number that JSON could not write. *)
Inductive Numeric : Type :=
| JSNumber (x : spec_float)
| JSNull.

Coercion float_of_Z : Z >-> spec_float.
Coercion JSNumber : spec_float >-> Numeric.
#[local] Arguments cons {A} & a l.
#[local] Arguments Some {A} & a.

(** [ToNumber]: [null] counts as [+0] in an addition. *)
Definition ToNumber (v : Numeric) : spec_float :=
  match v with
  | JSNumber x => x
  | JSNull => S754_zero false
  end.

(** [a + b] on numeric fields. *)
Definition js_add (a b : Numeric) : Numeric :=
  JSNumber (SFadd 53 1024 (ToNumber a) (ToNumber b)).

(** ** Data model *)

Record Product : Type := mkProduct {
  id : Z;
  name : string;
  price : Numeric
}.

(** What one slot of the [cart] array can hold. *)
Inductive CartEntry : Type :=
| IsProduct (p : Product)
| Undefined
| Null.

Record State : Type := mkState {
  products : list Product;
  cart : list CartEntry;
  totalPriceShoppingCart : Numeric
}.

(** An object literal handed to [set]: the fields it carries. *)
Record Partial : Type := mkPartial {
  with_products : option (list Product);
  with_cart : option (list CartEntry);
  with_totalPriceShoppingCart : option Numeric
}.

(** ** Completions: a result or a thrown exception *)

Inductive exn : Type := TypeError.

Inductive completion (A : Type) : Type :=
| Normal (a : A)
| Throw (e : exn).
Arguments Normal {A} a.
Arguments Throw {A} e.

Definition bind {A B} (c : completion A) (k : A -> completion B) : completion B :=
  match c with
  | Normal a => k a
  | Throw e => Throw e
  end.

Declare Scope js_scope.
Delimit Scope js_scope with js.
Notation "'let*' x ':=' c 'in' k" := (bind c (fun x => k))
  (at level 10, x name, c at level 100, k at level 200) : js_scope.
Local Open Scope js_scope.

(** ** Property access and array built-ins *)

(** [product.id] where [product] is a cart slot. *)
Definition get_id (product : CartEntry) : completion Z :=
  match product with
  | IsProduct p => Normal (id p)
  | Undefined | Null => Throw TypeError
  end.

(** [product.price] where [product] is a cart slot. *)
Definition get_price (product : CartEntry) : completion Numeric :=
  match product with
  | IsProduct p => Normal (price p)
  | Undefined | Null => Throw TypeError
  end.

(** [Array.prototype.find]: the first element the callback accepts. *)
Fixpoint Array_find {A} (callback : A -> bool) (l : list A) : option A :=
  match l with
  | [] => None
  | x :: rest => if callback x then Some x else Array_find callback rest
  end.

(** [Array.prototype.filter]: visits the elements from left to right and
    stops at the first callback that throws. *)
Fixpoint Array_filter {A} (callback : A -> completion bool) (l : list A)
  : completion (list A) :=
  match l with
  | [] => Normal []
  | x :: rest =>
      let* keep := callback x in
      let* kept := Array_filter callback rest in
      Normal (if keep then x :: kept else kept)
  end.

(** [Array.prototype.reduce] with an initial value. *)
Fixpoint Array_reduce {A B} (callback : B -> A -> completion B) (l : list A)
  (initialValue : B) : completion B :=
  match l with
  | [] => Normal initialValue
  | x :: rest =>
      let* acc := callback initialValue x in
      Array_reduce callback rest acc
  end.

(** [{...state}] and [Object.assign({}, state, next)]. *)
Definition spread (state : State) : Partial :=
  {| with_products := Some (products state);
     with_cart := Some (cart state);
     with_totalPriceShoppingCart := Some (totalPriceShoppingCart state) |}.

Definition Object_assign (state : State) (next : Partial) : State :=
  {| products := default (products state) (with_products next);
     cart := default (cart state) (with_cart next);
     totalPriceShoppingCart :=
       default (totalPriceShoppingCart state) (with_totalPriceShoppingCart next) |}.

(** [{...o, cart: c}] and [{...o, totalPriceShoppingCart: t}]. *)
Definition override_cart (o : Partial) (c : list CartEntry) : Partial :=
  {| with_products := with_products o;
     with_cart := Some c;
     with_totalPriceShoppingCart := with_totalPriceShoppingCart o |}.

Definition override_totalPriceShoppingCart (o : Partial) (t : Numeric) : Partial :=
  {| with_products := with_products o;
     with_cart := with_cart o;
     with_totalPriceShoppingCart := Some t |}.

(** A found product, or [undefined], as a cart slot. *)
Definition found (r : option Product) : CartEntry :=
  match r with
  | Some p => IsProduct p
  | None => Undefined
  end.

(** ** JSON documents and the persisted blob *)

#[local] Set Warnings "-register-all".

(** A JSON document. A number is kept as it is read at the field that
    holds it: [JNumber] at an integer field (product ids, the version),
    [JDouble] at a numeric field (prices, the total), where it is a double.
    There is no leaf for NaN or an infinity: JSON has none. *)
Inductive json : Type :=
| JNull
| JNumber (n : Z)
| JDouble (x : spec_float)
| JString (s : string)
| JArray (items : list json)
| JObject (fields : list (string * json)).

(** Property lookup in a parsed object: with a repeated key the last
    occurrence is the one [JSON.parse] keeps. *)
Fixpoint get_field (key : string) (fields : list (string * json)) : option json :=
  match fields with
  | [] => None
  | (k, v) :: rest =>
      match get_field key rest with
      | Some later => Some later
      | None => if String.eqb k key then Some v else None
      end
  end.

(** [JSON.stringify] of a numeric field: NaN and the infinities are written
    as [null], negative zero as [0], any other number as itself. *)
Definition stringify_number (v : Numeric) : json :=
  match v with
  | JSNumber (S754_zero _) => JDouble (S754_zero false)
  | JSNumber (S754_finite s m e) => JDouble (S754_finite s m e)
  | JSNumber (S754_infinity _) | JSNumber S754_nan => JNull
  | JSNull => JNull
  end.

(** [JSON.stringify] of a catalog product: its own properties in creation order. *)
Definition stringify_product (p : Product) : json :=
  JObject [("id", JNumber (id p)); ("name", JString (name p));
           ("price", stringify_number (price p))].

(** [JSON.stringify] of an array element: [undefined] is written as [null]. *)
Definition stringify_entry (e : CartEntry) : json :=
  match e with
  | IsProduct p => stringify_product p
  | Undefined => JNull
  | Null => JNull
  end.

(** [JSON.stringify] of the store's state; the four actions are functions
    and are left out of the text. *)
Definition stringify_state (state : State) : json :=
  JObject [("products", JArray (map stringify_product (products state)));
           ("cart", JArray (map stringify_entry (cart state)));
           ("totalPriceShoppingCart", stringify_number (totalPriceShoppingCart state))].

(** The typed reading of a parsed document; [None] when the document is
    not the text of a value of that type. *)
Definition parse_numeric (j : json) : option Numeric :=
  match j with
  | JDouble x => Some (JSNumber x)
  | JNumber n => Some (JSNumber (float_of_Z n))
  | JNull => Some JSNull
  | _ => None
  end.

Definition parse_product (j : json) : option Product :=
  match j with
  | JObject fields =>
      match get_field "id" fields, get_field "name" fields, get_field "price" fields with
      | Some (JNumber i), Some (JString n), Some jp =>
          option_map (mkProduct i n) (parse_numeric jp)
      | _, _, _ => None
      end
  | _ => None
  end.

Definition parse_entry (j : json) : option CartEntry :=
  match j with
  | JNull => Some Null
  | _ => option_map IsProduct (parse_product j)
  end.

Fixpoint parse_all {A} (parse_one : json -> option A) (items : list json) : option (list A) :=
  match items with
  | [] => Some []
  | j :: rest =>
      match parse_one j, parse_all parse_one rest with
      | Some a, Some l => Some (a :: l)
      | _, _ => None
      end
  end.

Definition parse_array {A} (parse_one : json -> option A) (j : json) : option (list A) :=
  match j with
  | JArray items => parse_all parse_one items
  | _ => None
  end.

(** A property that is absent stays absent; one that is present must read
    at its type. *)
Definition parse_property {A} (parse_one : json -> option A) (key : string)
  (fields : list (string * json)) : option (option A) :=
  match get_field key fields with
  | None => Some None
  | Some j => option_map Some (parse_one j)
  end.

(** The persisted state as the fields it carries; a document that is not
    an object carries none of them. *)
Definition parse_state (j : json) : option Partial :=
  match j with
  | JObject fields =>
      match parse_property (parse_array parse_product) "products" fields,
            parse_property (parse_array parse_entry) "cart" fields,
            parse_property parse_numeric "totalPriceShoppingCart" fields with
      | Some ps, Some c, Some t => Some (mkPartial ps c t)
      | _, _, _ => None
      end
  | _ => Some (mkPartial None None None)
  end.

(** ** The store: [create (persist (config, options))] *)

(** What the program can observe: the current state object and the
    browser's [localStorage]. *)
Record Store : Type := mkStore {
  state : State;
  localStorage : gmap string json
}.

(** The [name] option of [persist]. *)
Definition persist_name : string := "carrito-compras".

(** The default [version] option of [persist]. *)
Definition persist_version : Z := 0.

(** The value [persist] stores: the state wrapped with its version. *)
Definition stringify_stored (s : State) : json :=
  JObject [("state", stringify_state s); ("version", JNumber persist_version)].

(** [setItem]: [localStorage.setItem(name, JSON.stringify({state, version}))]. *)
Definition setItem (st : Store) : Store :=
  {| state := state st;
     localStorage := <[persist_name := stringify_stored (state st)]> (localStorage st) |}.

(** An action runs against the store; when its updater throws, the
    exception leaves the action and the store is as it was. *)
Definition Action : Type := Store -> completion unit * Store.

(** [set(updater)]: the updater's result is merged into the current state
    and the new state is written to [localStorage]. *)
Definition set (updater : State -> completion Partial) : Action :=
  fun st =>
    match updater (state st) with
    | Normal next =>
        (Normal tt,
         setItem {| state := Object_assign (state st) next;
                    localStorage := localStorage st |})
    | Throw e => (Throw e, st)
    end.

(** The state object the configuration function returns. *)
Definition initialState : State :=
  {| products :=
       [ mkProduct 1 "product 1" 50;
         mkProduct 2 "product 2" 30;
         mkProduct 3 "product 3" 40;
         mkProduct 4 "product 4" 78;
         mkProduct 5 "product 5" 90;
         mkProduct 6 "product 6" 60 ];
     cart := [];
     totalPriceShoppingCart := 0 |}.

(** Modelled from the spec: [productsInitialState], imported from
    constants/initialState, which is not among the sources. The spec
    describes it as the original default snapshot: the full catalog, an
    empty cart and a total of 0 (the comment on [clearCart] in the source
    says the same: it empties the cart and resets the total). *)
Definition productsInitialState : Partial :=
  {| with_products := Some (products initialState);
     with_cart := Some [];
     with_totalPriceShoppingCart := Some 0 |}.

(** *** Actions *)

Definition addToCart (id0 : Z) : Action :=
  set (fun state =>
         let newProduct := found (Array_find (fun product => id product =? id0) (products state)) in
         Normal (override_cart (spread state) (cart state ++ [newProduct]))).

Definition deleteFromCart (id0 : Z) : Action :=
  set (fun state =>
         let* cart' :=
           Array_filter
             (fun product => let* i := get_id product in Normal (negb (i =? id0)))
             (cart state) in
         Normal (override_cart (spread state) cart')).

Definition clearCart : Action :=
  set (fun _ => Normal productsInitialState).

Definition calculateTotalPriceOfCart : Action :=
  set (fun state =>
         let* totalPrice :=
           Array_reduce
             (fun previousValue product =>
                let* p := get_price product in Normal (js_add previousValue p))
             (cart state) 0 in
         Normal (override_totalPriceShoppingCart (spread state) totalPrice)).

(** *** Rehydration at store creation *)

(** The stored value is used when it carries no version number or the
    current one; without a [migrate] option any other version is dropped. *)
Definition parse_stored (j : json) : option (option Partial) :=
  match j with
  | JObject fields =>
      match get_field "version" fields with
      | Some (JNumber v) =>
          if v =? persist_version
          then match get_field "state" fields with
               | Some js => option_map Some (parse_state js)
               | None => Some None
               end
          else Some None
      | _ =>
          match get_field "state" fields with
          | Some js => option_map Some (parse_state js)
          | None => Some None
          end
      end
  | _ => Some None
  end.

(** [create]: build the initial state, then merge what [localStorage]
    holds under [persist_name] over it ([{...currentState, ...persistedState}]).
    [None] when a stored field is outside the typed state model. *)
Definition create (storage : gmap string json) : option Store :=
  match storage !! persist_name with
  | None => Some (mkStore initialState storage)
  | Some blob =>
      match parse_stored blob with
      | Some (Some persisted) => Some (mkStore (Object_assign initialState persisted) storage)
      | Some None => Some (mkStore initialState storage)
      | None => None
      end
  end.

(** *** Runs of the store *)

Inductive Call : Type :=
| AddToCart (id0 : Z)
| DeleteFromCart (id0 : Z)
| ClearCart
| CalculateTotalPriceOfCart.

Definition dispatch (c : Call) : Action :=
  match c with
  | AddToCart i => addToCart i
  | DeleteFromCart i => deleteFromCart i
  | ClearCart => clearCart
  | CalculateTotalPriceOfCart => calculateTotalPriceOfCart
  end.

(** The store after a sequence of user events; an event whose action
    throws leaves the store as it was. *)
Fixpoint run (calls : list Call) (st : Store) : Store :=
  match calls with
  | [] => st
  | c :: rest => run rest (snd (dispatch c st))
  end.

(** A store is reachable when user events lead to it from a store created
    over some content of [localStorage]. *)
Definition reachable (st : Store) : Prop :=
  exists storage st0 calls, create storage = Some st0 /\ run calls st0 = st.

(** ** Vocabulary of the specification *)

(** The slot holds a product (not [undefined], not [null]). *)
Definition is_product (e : CartEntry) : Prop :=
  match e with
  | IsProduct _ => True
  | Undefined | Null => False
  end.

(** The slot holds a product whose id is [id0]. *)
Definition has_id (id0 : Z) (e : CartEntry) : bool :=
  match e with
  | IsProduct p => id p =? id0
  | Undefined | Null => false
  end.

(** How many slots hold a product whose id is [id0]. *)
Fixpoint count_id (id0 : Z) (l : list CartEntry) : nat :=
  match l with
  | [] => O
  | e :: rest => if has_id id0 e then S (count_id id0 rest) else count_id id0 rest
  end.

(** The prices of the products of a cart added to [acc] from left to
    right, in the arithmetic of the code. *)
Fixpoint sum_prices_from (acc : Numeric) (l : list CartEntry) : Numeric :=
  match l with
  | [] => acc
  | IsProduct p :: rest => sum_prices_from (js_add acc (price p)) rest
  | _ :: rest => sum_prices_from acc rest
  end.

(** The sum of the [price] fields over the products of a cart, added from
    left to right starting from 0. *)
Definition sum_prices (l : list CartEntry) : Numeric := sum_prices_from 0 l.

(** The cart holds products only, and their prices are the integers [ns],
    in order. *)
Definition integer_prices (l : list CartEntry) (ns : list Z) : Prop :=
  Forall2 (fun e (n : Z) => exists p, e = IsProduct p /\ price p = n) l ns.

(** Each of the integers [ns] and each running sum, from [acc] on, lies
    strictly between -2^53 and 2^53. *)
Fixpoint safe_sums (acc : Z) (ns : list Z) : Prop :=
  match ns with
  | [] => Z.abs acc < 2 ^ 53
  | n :: rest => Z.abs acc < 2 ^ 53 /\ Z.abs n < 2 ^ 53 /\ safe_sums (acc + n) rest
  end.

(** The exact sum of a list of integers. *)
Definition exact_sum (ns : list Z) : Z := fold_right Z.add 0 ns.

(** The mantissa and exponent of the double that is a nonzero integer of
    magnitude below 2^53. *)
Definition mantissa_of (n : Z) : positive :=
  Z.to_pos (Z.abs n * 2 ^ (52 - Z.log2 (Z.abs n))).

Definition exponent_of (n : Z) : Z := Z.log2 (Z.abs n) - 52.

(** The integer a numeric field denotes, if it denotes one. *)
Definition integer_value (v : Numeric) : option Z :=
  match v with
  | JSNumber (S754_zero _) => Some 0
  | JSNumber (S754_finite s m e) =>
      if 0 <=? e then Some (cond_Zopp s (Zpos m * 2 ^ e))
      else if Zpos m mod 2 ^ (- e) =? 0 then Some (cond_Zopp s (Zpos m / 2 ^ (- e)))
      else None
  | _ => None
  end.

(** A numeric field that JSON writes and reads back as it is: not NaN, not
    an infinity, not negative zero. *)
Definition json_exact (v : Numeric) : Prop :=
  match v with
  | JSNumber (S754_zero s) => s = false
  | JSNumber (S754_finite _ _ _) => True
  | JSNumber (S754_infinity _) | JSNumber S754_nan => False
  | JSNull => True
  end.

(** A snapshot all of whose numeric fields are [json_exact]. *)
Definition json_exact_numbers (s : State) : Prop :=
  Forall (fun p => json_exact (price p)) (products s) /\
  Forall (fun e => match e with IsProduct p => json_exact (price p) | _ => True end) (cart s) /\
  json_exact (totalPriceShoppingCart s).

(** What a reload makes of a numeric field: what [parse_numeric] reads in
    what [stringify_number] wrote. *)
Definition reloaded_number (v : Numeric) : Numeric :=
  match v with
  | JSNumber (S754_zero _) => JSNumber (S754_zero false)
  | JSNumber (S754_finite s m e) => JSNumber (S754_finite s m e)
  | JSNumber (S754_infinity _) | JSNumber S754_nan => JSNull
  | JSNull => JSNull
  end.

Definition reloaded_product (p : Product) : Product :=
  {| id := id p; name := name p; price := reloaded_number (price p) |}.

(** What a reload makes of a slot: [undefined] comes back as [null]. *)
Definition reloaded_entry (e : CartEntry) : CartEntry :=
  match e with
  | IsProduct p => IsProduct (reloaded_product p)
  | Undefined => Null
  | Null => Null
  end.

(** The state a reload yields: slots that held [undefined] hold [null],
    and numeric fields are as JSON reads them back. *)
Definition reloaded (s : State) : State :=
  {| products := map reloaded_product (products s);
     cart := map reloaded_entry (cart s);
     totalPriceShoppingCart := reloaded_number (totalPriceShoppingCart s) |}.

(** The fresh store of a browser whose [localStorage] is empty. *)
Definition freshStore : Store := mkStore initialState ∅.

(** The store reached from a fresh one by [addToCart 7]; 7 is not a
    catalog id. *)
Definition storeAfterUnknownAdd : Store := run [AddToCart 7] freshStore.

(** An event the catalog can cause: an add names the id of a catalog
    product. *)
Definition catalog_call (c : Call) : Prop :=
  match c with
  | AddToCart i => exists q, In q (products initialState) /\ id q = i
  | _ => True
  end.

(** Two products whose prices are integers that a double holds exactly
    but whose sum it does not, and a store with both in the cart. *)
Definition bigProduct1 : Product := mkProduct 8 "product 8" 9007199254740991.
Definition bigProduct2 : Product := mkProduct 9 "product 9" 2.
Definition bigPricesStore : Store :=
  mkStore (mkState [bigProduct1; bigProduct2]
             [IsProduct bigProduct1; IsProduct bigProduct2] 0) ∅.

(** A product priced at the largest double, and the store left by a
    recompute over a cart that holds it twice. *)
Definition hugeProduct : Product :=
  mkProduct 7 "product 7" (S754_finite false 9007199254740991 971).
Definition overflowStore : Store :=
  snd (calculateTotalPriceOfCart
         (mkStore (mkState [hugeProduct] [IsProduct hugeProduct; IsProduct hugeProduct] 0) ∅)).

(** Sample stores over the default catalog. *)
Definition storeOfCart (c : list CartEntry) (total : Numeric) : Store :=
  mkStore (mkState (products initialState) c total) ∅.

Definition product1 : Product := mkProduct 1 "product 1" 50.
Definition product2 : Product := mkProduct 2 "product 2" 30.
Definition product3 : Product := mkProduct 3 "product 3" 40.
Definition product4 : Product := mkProduct 4 "product 4" 78.

(** The slot holds a product taken from the list [ps]. *)
Definition from_products (ps : list Product) (e : CartEntry) : Prop :=
  match e with
  | IsProduct p => In p ps
  | Undefined | Null => False
  end.

(** An event other than [clearCart] whose add, if it is one, names an id
    carried by a product of [ps]. *)
Definition known_call (ps : list Product) (c : Call) : Prop :=
  match c with
  | AddToCart i => exists q, In q ps /\ id q = i
  | DeleteFromCart _ | CalculateTotalPriceOfCart => True
  | ClearCart => False
  end.

(** The adds of a sequence of events, in order. *)
Definition adds_of (calls : list Call) : list Call :=
  List.filter (fun c => match c with AddToCart _ => true | _ => false end) calls.

(** The slots the adds of a sequence of events append when the product
    list is [ps]: for each add, what [find] returns for its id. *)
Definition appended (ps : list Product) (calls : list Call) : list CartEntry :=
  flat_map
    (fun c =>
       match c with
       | AddToCart i => [found (Array_find (fun product => id product =? i) ps)]
       | _ => []
       end)
    calls.

(** A store whose cart holds products twice and others once. *)
Definition sampleStore : Store :=
  storeOfCart [IsProduct product1; IsProduct product2; IsProduct product1;
               IsProduct product4] 0.

(** ** Additions that are exact

    Integers of magnitude below 2^53 are doubles, and the double sum of two
    of them is their integer sum whenever that sum is again below 2^53 in
    magnitude. *)

Lemma digits2_log2 (p : positive) : Zpos (digits2_pos p) = Z.log2 (Zpos p) + 1.
Proof.
  assert (forall q, digits2_pos q = Pos.size q) as Hsize.
  { induction q; simpl; congruence. }
  rewrite Hsize. destruct p; simpl; lia.
Qed.

Lemma digits2_shift (p q : positive) (k : Z) :
  0 <= k -> Zpos q = Zpos p * 2 ^ k ->
  Zpos (digits2_pos q) = Zpos (digits2_pos p) + k.
Proof.
  intros Hk Hq. rewrite !digits2_log2, Hq, Z.log2_mul_pow2 by lia. lia.
Qed.

Lemma digits2_bound (p : positive) (d : Z) :
  Zpos p < 2 ^ d -> 0 <= d -> Zpos (digits2_pos p) <= d.
Proof.
  intros Hp Hd. rewrite digits2_log2.
  assert (Z.log2 (Zpos p) < d); [|lia].
  apply Z.log2_lt_pow2; lia.
Qed.

Lemma iter_xO (d m : positive) : Zpos (Pos.iter xO m d) = Zpos m * 2 ^ Zpos d.
Proof.
  revert m. induction d using Pos.peano_ind; intros m.
  - simpl. lia.
  - rewrite Pos.iter_succ, Pos2Z.inj_succ, Z.pow_succ_r by lia.
    rewrite Pos2Z.inj_xO, IHd. lia.
Qed.

Lemma shr_1_even (M c : Z) :
  0 < c -> M = 2 * c ->
  shr_1 (Build_shr_record M false false) = Build_shr_record c false false.
Proof. intros Hc ->. destruct c; try lia. reflexivity. Qed.

Lemma pow2_double (n : positive) : 2 ^ Zpos n~0 = 2 ^ Zpos n * 2 ^ Zpos n.
Proof. change (Zpos n~0) with (2 * Zpos n). apply Z.pow_twice_r. Qed.

Lemma pow2_double1 (n : positive) : 2 ^ Zpos n~1 = 2 * (2 ^ Zpos n * 2 ^ Zpos n).
Proof.
  change (Zpos n~1) with (2 * Zpos n + 1).
  rewrite Z.pow_add_r, Z.pow_twice_r by lia.
  change (2 ^ 1) with 2. ring.
Qed.

Lemma iter_shr_1 (n : positive) (M c : Z) :
  0 < c -> M = c * 2 ^ Zpos n ->
  SpecFloat.iter_pos shr_1 n (Build_shr_record M false false)
  = Build_shr_record c false false.
Proof.
  revert M c. induction n as [n IH|n IH|]; intros M c Hc HM; cbn [SpecFloat.iter_pos].
  - pose proof (Z.pow_pos_nonneg 2 (Zpos n) ltac:(lia) ltac:(lia)) as Hpow.
    rewrite (shr_1_even M (c * 2 ^ Zpos n * 2 ^ Zpos n)).
    + rewrite (IH _ (c * 2 ^ Zpos n)); [apply IH| |]; try reflexivity; try assumption; nia.
    + nia.
    + rewrite HM, pow2_double1. ring.
  - pose proof (Z.pow_pos_nonneg 2 (Zpos n) ltac:(lia) ltac:(lia)) as Hpow.
    rewrite (IH M (c * 2 ^ Zpos n)); [apply IH| |]; try reflexivity; try assumption.
    + nia.
    + rewrite HM, pow2_double. ring.
  - apply shr_1_even; [assumption|]. rewrite HM. change (2 ^ 1) with 2. ring.
Qed.

Lemma binary_round_aux_exact (s : bool) (mz : positive) (ez : Z) (c : positive) (n : Z) :
  0 <= n ->
  Zpos mz = Zpos c * 2 ^ n ->
  Zpos (digits2_pos c) = 53 ->
  -1074 <= ez + n <= 971 ->
  binary_round_aux 53 1024 s (Zpos mz) ez loc_Exact = S754_finite s c (ez + n).
Proof.
  intros Hn Hmz Hc He.
  assert (Zpos (digits2_pos mz) = 53 + n) as Hd.
  { rewrite (digits2_shift c mz n Hn Hmz). lia. }
  unfold binary_round_aux, shr_fexp, fexp, emin. cbn [Zdigits2 shr_record_of_loc].
  rewrite Hd.
  replace (Z.max (53 + n + ez - 53) (3 - 1024 - 53) - ez) with n by lia.
  assert (shr (Build_shr_record (Zpos mz) false false) ez n
          = (Build_shr_record (Zpos c) false false, ez + n)) as ->.
  { unfold shr. destruct n as [|n|n]; try lia.
    - f_equal; [|lia]. f_equal. rewrite Hmz. simpl. lia.
    - f_equal. apply iter_shr_1; [lia|assumption]. }
  cbn [shr_m loc_of_shr_record round_nearest_even Zdigits2 shr_record_of_loc].
  rewrite Hc.
  replace (Z.max (53 + (ez + n) - 53) (3 - 1024 - 53) - (ez + n)) with 0 by lia.
  cbn [shr shr_m].
  replace (ez + n <=? 1024 - 53) with true by (symmetry; apply Z.leb_le; lia).
  reflexivity.
Qed.

Lemma binary_round_exact (s : bool) (mx : positive) (ex : Z) (c : positive) (et : Z) :
  Zpos (digits2_pos c) = 53 ->
  -1074 <= et <= 971 ->
  (ex <= et /\ Zpos mx = Zpos c * 2 ^ (et - ex)) \/
  (et < ex /\ Zpos c = Zpos mx * 2 ^ (ex - et)) ->
  binary_round 53 1024 s mx ex = S754_finite s c et.
Proof.
  intros Hc Het Hrel. unfold binary_round.
  assert (Zpos (digits2_pos mx) + ex = 53 + et) as Hd.
  { destruct Hrel as [[Hle Hm]|[Hlt Hm]].
    - rewrite (digits2_shift c mx (et - ex)) by (assumption || lia). lia.
    - pose proof (digits2_shift mx c (ex - et) ltac:(lia) Hm). lia. }
  rewrite Hd. unfold fexp, emin.
  replace (Z.max (53 + et - 53) (3 - 1024 - 53)) with et by lia.
  unfold shl_align.
  destruct Hrel as [[Hle Hm]|[Hlt Hm]].
  - assert (binary_round_aux 53 1024 s (Zpos mx) ex loc_Exact
            = S754_finite s c (ex + (et - ex))) as Haux.
    { apply binary_round_aux_exact; (assumption || lia). }
    replace (ex + (et - ex)) with et in Haux by lia.
    destruct (et - ex) as [|n|n] eqn:E; try lia; exact Haux.
  - destruct (et - ex) as [|n|n] eqn:E; try lia.
    assert (binary_round_aux 53 1024 s (Zpos (Pos.iter xO mx n)) et loc_Exact
            = S754_finite s c (et + 0)) as Haux.
    { apply binary_round_aux_exact; try (assumption || lia).
      rewrite iter_xO, Hm. replace (ex - et) with (Zpos n) by lia.
      change (2 ^ 0) with 1. lia. }
    now rewrite Z.add_0_r in Haux.
Qed.

Lemma mantissa_of_digits (n : Z) :
  n <> 0 -> Z.abs n < 2 ^ 53 ->
  Zpos (mantissa_of n) = Z.abs n * 2 ^ (52 - Z.log2 (Z.abs n)) /\
  Zpos (digits2_pos (mantissa_of n)) = 53 /\
  0 <= Z.log2 (Z.abs n) <= 52.
Proof.
  intros Hn Hlt.
  assert (0 < Z.abs n) as Hpos by lia.
  assert (0 <= Z.log2 (Z.abs n) <= 52) as Hlog.
  { split; [apply Z.log2_nonneg|].
    assert (Z.log2 (Z.abs n) < 53); [|lia]. apply Z.log2_lt_pow2; lia. }
  assert (0 < Z.abs n * 2 ^ (52 - Z.log2 (Z.abs n))) as Hm.
  { apply Z.mul_pos_pos; [assumption|]. apply Z.pow_pos_nonneg; lia. }
  unfold mantissa_of. rewrite Z2Pos.id by assumption.
  split; [reflexivity|]. split; [|assumption].
  rewrite digits2_log2, Z2Pos.id, Z.log2_mul_pow2 by lia. lia.
Qed.

Lemma binary_normalize_exact (n k : Z) :
  n <> 0 -> Z.abs n < 2 ^ 53 -> 0 <= k ->
  binary_normalize 53 1024 (n * 2 ^ k) (- k) false
  = S754_finite (n <? 0) (mantissa_of n) (exponent_of n).
Proof.
  intros Hn Hlt Hk.
  destruct (mantissa_of_digits n Hn Hlt) as (Hm & Hd & Hlog).
  pose proof (Z.pow_pos_nonneg 2 k ltac:(lia) Hk) as Hpow.
  assert (forall (s : bool) (mx : positive),
             Zpos mx = Z.abs n * 2 ^ k ->
             binary_round 53 1024 s mx (- k)
             = S754_finite s (mantissa_of n) (exponent_of n)) as Hround.
  { intros s mx Hmx. apply binary_round_exact; unfold exponent_of; [assumption|lia|].
    destruct (Z_le_gt_dec (- k) (Z.log2 (Z.abs n) - 52)) as [Hle|Hgt].
    - left. split; [assumption|]. rewrite Hmx, Hm, <- Z.mul_assoc, <- Z.pow_add_r by lia.
      do 2 f_equal. lia.
    - right. split; [lia|]. rewrite Hmx, Hm, <- Z.mul_assoc, <- Z.pow_add_r by lia.
      do 2 f_equal. lia. }
  unfold binary_normalize.
  destruct (n * 2 ^ k) as [|m|m] eqn:E.
  - nia.
  - replace (n <? 0) with false by (symmetry; apply Z.ltb_ge; nia).
    apply Hround. rewrite <- E. rewrite Z.abs_eq by nia. reflexivity.
  - replace (n <? 0) with true by (symmetry; apply Z.ltb_lt; nia).
    apply Hround.
    assert (Zpos m = - (n * 2 ^ k)) as -> by lia.
    rewrite Z.abs_neq by nia. ring.
Qed.

Lemma float_of_Z_exact (n : Z) :
  n <> 0 -> Z.abs n < 2 ^ 53 ->
  float_of_Z n = S754_finite (n <? 0) (mantissa_of n) (exponent_of n).
Proof.
  intros Hn Hlt. unfold float_of_Z.
  rewrite <- (binary_normalize_exact n 0 Hn Hlt) by lia.
  f_equal. rewrite Z.pow_0_r. lia.
Qed.

Lemma shl_align_value (mx : positive) (ex ez : Z) :
  ez <= ex ->
  Zpos (fst (shl_align mx ex ez)) = Zpos mx * 2 ^ (ex - ez).
Proof.
  intros Hle. unfold shl_align.
  destruct (ez - ex) as [|d|d] eqn:E; try lia; cbn [fst].
  - replace (ex - ez) with 0 by lia. simpl. lia.
  - rewrite iter_xO. f_equal. f_equal. lia.
Qed.

Lemma float_of_Z_add (a b : Z) :
  Z.abs a < 2 ^ 53 -> Z.abs b < 2 ^ 53 -> Z.abs (a + b) < 2 ^ 53 ->
  SFadd 53 1024 (float_of_Z a) (float_of_Z b) = float_of_Z (a + b).
Proof.
  intros Ha Hb Hab.
  destruct (Z.eq_dec a 0) as [->|Ha0].
  { change (float_of_Z 0) with (S754_zero false).
    destruct (Z.eq_dec b 0) as [->|Hb0]; [reflexivity|].
    rewrite Z.add_0_l, (float_of_Z_exact b Hb0 Hb). reflexivity. }
  destruct (Z.eq_dec b 0) as [->|Hb0].
  { change (float_of_Z 0) with (S754_zero false). rewrite Z.add_0_r.
    rewrite (float_of_Z_exact a Ha0 Ha). reflexivity. }
  rewrite (float_of_Z_exact a Ha0 Ha), (float_of_Z_exact b Hb0 Hb).
  destruct (mantissa_of_digits a Ha0 Ha) as (Hma & _ & Hla).
  destruct (mantissa_of_digits b Hb0 Hb) as (Hmb & _ & Hlb).
  cbn [SFadd].
  set (ez := Z.min (exponent_of a) (exponent_of b)).
  assert (ez <= exponent_of a /\ ez <= exponent_of b /\ ez <= 0) as (Hea & Heb & Hez).
  { unfold ez, exponent_of. lia. }
  rewrite !shl_align_value by assumption.
  assert (cond_Zopp (a <? 0) (Zpos (mantissa_of a) * 2 ^ (exponent_of a - ez))
          = a * 2 ^ (- ez)) as ->.
  { rewrite Hma, <- Z.mul_assoc, <- Z.pow_add_r by (unfold exponent_of in *; lia).
    replace (52 - Z.log2 (Z.abs a) + (exponent_of a - ez)) with (- ez)
      by (unfold exponent_of; lia).
    unfold cond_Zopp. destruct (Z.ltb_spec a 0).
    - rewrite Z.abs_neq by lia. ring.
    - rewrite Z.abs_eq by lia. ring. }
  assert (cond_Zopp (b <? 0) (Zpos (mantissa_of b) * 2 ^ (exponent_of b - ez))
          = b * 2 ^ (- ez)) as ->.
  { rewrite Hmb, <- Z.mul_assoc, <- Z.pow_add_r by (unfold exponent_of in *; lia).
    replace (52 - Z.log2 (Z.abs b) + (exponent_of b - ez)) with (- ez)
      by (unfold exponent_of; lia).
    unfold cond_Zopp. destruct (Z.ltb_spec b 0).
    - rewrite Z.abs_neq by lia. ring.
    - rewrite Z.abs_eq by lia. ring. }
  rewrite <- Z.mul_add_distr_r.
  destruct (Z.eq_dec (a + b) 0) as [H0|H0].
  - rewrite H0. reflexivity.
  - rewrite (float_of_Z_exact (a + b) H0 Hab).
    rewrite <- (binary_normalize_exact (a + b) (- ez) H0 Hab) by lia.
    f_equal. lia.
Qed.

Lemma safe_sums_head (acc : Z) (ns : list Z) : safe_sums acc ns -> Z.abs acc < 2 ^ 53.
Proof. destruct ns; simpl; tauto. Qed.

Lemma sum_prices_from_exact (l : list CartEntry) (ns : list Z) :
  integer_prices l ns ->
  forall acc : Z,
    safe_sums acc ns ->
    sum_prices_from acc l = (acc + exact_sum ns)%Z.
Proof.
  induction 1 as [|e n rest ns' (p & -> & Hp) _ IH]; intros acc Hsafe; simpl.
  - now rewrite Z.add_0_r.
  - destruct Hsafe as (Hacc & Hn & Hrest).
    pose proof (safe_sums_head _ _ Hrest) as Hsum.
    rewrite Hp. unfold js_add. cbn [ToNumber].
    rewrite float_of_Z_add by assumption.
    rewrite (IH (acc + n) Hrest). do 2 f_equal. lia.
Qed.

(** ** Lemmas on the array built-ins *)

Section ArrayFind.
Context {A : Type} (callback : A -> bool).

Lemma Array_find_Some (l : list A) (x : A) :
  Array_find callback l = Some x -> In x l /\ callback x = true.
Proof.
  induction l as [|y rest IH]; simpl; [discriminate|].
  destruct (callback y) eqn:Hy.
  - intros [= <-]. auto.
  - intros H. destruct (IH H). auto.
Qed.

Lemma Array_find_None (l : list A) :
  Array_find callback l = None <-> (forall x, In x l -> callback x = false).
Proof.
  induction l as [|y rest IH]; simpl.
  - split; [intros _ x [] | reflexivity].
  - destruct (callback y) eqn:Hy; split.
    + discriminate.
    + intros H. specialize (H y (or_introl eq_refl)). congruence.
    + intros H x [<-|Hin]; [assumption | now apply IH].
    + intros H. apply IH. intros x Hin. apply H. now right.
Qed.

Lemma Array_find_hit (l : list A) :
  (exists x, In x l /\ callback x = true) ->
  exists y, Array_find callback l = Some y.
Proof.
  intros (x & Hin & Hx).
  destruct (Array_find callback l) as [y|] eqn:E; [eauto|].
  rewrite Array_find_None in E. rewrite (E x Hin) in Hx. discriminate.
Qed.
End ArrayFind.

Section CartArrays.
Variable id0 : Z.

(** On a cart of products, [filter] with the callback of [deleteFromCart]
    keeps the slots whose id differs from [id0]. *)
Lemma Array_filter_products (l : list CartEntry) :
  Forall is_product l ->
  Array_filter (fun product => let* i := get_id product in Normal (negb (i =? id0))) l
  = Normal (List.filter (fun e => negb (has_id id0 e)) l).
Proof.
  induction 1 as [|e rest He _ IH]; simpl; [reflexivity|].
  destruct e as [p| |]; try contradiction.
  simpl. rewrite IH. simpl. now destruct (id p =? id0).
Qed.

(** A slot that is not a product makes that [filter] throw. *)
Lemma Array_filter_throws (l : list CartEntry) :
  Exists (fun e => ~ is_product e) l ->
  Array_filter (fun product => let* i := get_id product in Normal (negb (i =? id0))) l
  = Throw TypeError.
Proof.
  induction 1 as [e rest He | e rest _ IH]; simpl.
  - destruct e; simpl in *; tauto.
  - destruct e as [p| |]; simpl; try reflexivity.
    now rewrite IH.
Qed.

Lemma filter_length_count (l : list CartEntry) :
  (length (List.filter (fun e => negb (has_id id0 e)) l) + count_id id0 l = length l)%nat.
Proof.
  induction l as [|e rest IH]; simpl; [reflexivity|].
  destruct (has_id id0 e); simpl; lia.
Qed.

Lemma filter_none_matching (l : list CartEntry) :
  (forall e, In e l -> has_id id0 e = false) ->
  List.filter (fun e => negb (has_id id0 e)) l = l.
Proof.
  induction l as [|e rest IH]; simpl; intros H; [reflexivity|].
  rewrite (H e (or_introl eq_refl)). simpl. f_equal.
  apply IH. intros x Hx. apply H. now right.
Qed.

Lemma count_none_matching (l : list CartEntry) :
  (forall e, In e l -> has_id id0 e = false) -> count_id id0 l = O.
Proof.
  induction l as [|e rest IH]; simpl; intros H; [reflexivity|].
  rewrite (H e (or_introl eq_refl)). apply IH. intros x Hx. apply H. now right.
Qed.
End CartArrays.

(** On a cart of products, [reduce] with the callback of
    [calculateTotalPriceOfCart] adds the prices to the accumulator. *)
Lemma Array_reduce_products (l : list CartEntry) :
  Forall is_product l ->
  forall acc,
    Array_reduce (fun previousValue product =>
                    let* p := get_price product in Normal (js_add previousValue p)) l acc
    = Normal (sum_prices_from acc l).
Proof.
  induction 1 as [|e rest He _ IH]; intros acc; simpl.
  - reflexivity.
  - destruct e as [p| |]; try contradiction.
    simpl. now rewrite IH.
Qed.

Lemma Array_reduce_throws (l : list CartEntry) :
  Exists (fun e => ~ is_product e) l ->
  forall acc,
    Array_reduce (fun previousValue product =>
                    let* p := get_price product in Normal (js_add previousValue p)) l acc
    = Throw TypeError.
Proof.
  induction 1 as [e rest He | e rest _ IH]; intros acc; simpl.
  - destruct e; simpl in *; tauto.
  - destruct e as [p| |]; simpl; try reflexivity. apply IH.
Qed.

(** ** Lemmas on [set] *)

Lemma state_setItem (st : Store) : state (setItem st) = state st.
Proof. reflexivity. Qed.

Lemma lookup_setItem (st : Store) :
  localStorage (setItem st) !! persist_name = Some (stringify_stored (state st)).
Proof. unfold setItem. simpl. apply lookup_insert_eq. Qed.

Lemma set_Normal (updater : State -> completion Partial) (st : Store) (next : Partial) :
  updater (state st) = Normal next ->
  fst (set updater st) = Normal tt /\
  state (snd (set updater st)) = Object_assign (state st) next.
Proof. intros H. unfold set. rewrite H. split; reflexivity. Qed.

Lemma set_Throw (updater : State -> completion Partial) (st : Store) (e : exn) :
  updater (state st) = Throw e ->
  set updater st = (Throw e, st).
Proof. intros H. unfold set. now rewrite H. Qed.

Lemma Object_assign_spread (s0 s : State) : Object_assign s0 (spread s) = s.
Proof. now destruct s. Qed.

(** ** The actions, one by one *)

Lemma addToCart_state (id0 : Z) (st : Store) :
  fst (addToCart id0 st) = Normal tt /\
  state (snd (addToCart id0 st)) =
    {| products := products (state st);
       cart := cart (state st) ++
               [found (Array_find (fun product => id product =? id0) (products (state st)))];
       totalPriceShoppingCart := totalPriceShoppingCart (state st) |}.
Proof. split; reflexivity. Qed.

Lemma deleteFromCart_products (id0 : Z) (st : Store) :
  Forall is_product (cart (state st)) ->
  fst (deleteFromCart id0 st) = Normal tt /\
  state (snd (deleteFromCart id0 st)) =
    {| products := products (state st);
       cart := List.filter (fun e => negb (has_id id0 e)) (cart (state st));
       totalPriceShoppingCart := totalPriceShoppingCart (state st) |}.
Proof.
  intros H. unfold deleteFromCart.
  apply (set_Normal _ st
           (override_cart (spread (state st))
              (List.filter (fun e => negb (has_id id0 e)) (cart (state st))))).
  now rewrite (Array_filter_products id0 _ H).
Qed.

Lemma deleteFromCart_throws (id0 : Z) (st : Store) :
  Exists (fun e => ~ is_product e) (cart (state st)) ->
  deleteFromCart id0 st = (Throw TypeError, st).
Proof.
  intros H. unfold deleteFromCart.
  apply set_Throw. now rewrite (Array_filter_throws id0 _ H).
Qed.

Lemma calculateTotalPriceOfCart_products (st : Store) :
  Forall is_product (cart (state st)) ->
  fst (calculateTotalPriceOfCart st) = Normal tt /\
  state (snd (calculateTotalPriceOfCart st)) =
    {| products := products (state st);
       cart := cart (state st);
       totalPriceShoppingCart := sum_prices (cart (state st)) |}.
Proof.
  intros H. unfold calculateTotalPriceOfCart.
  apply (set_Normal _ st
           (override_totalPriceShoppingCart (spread (state st))
              (sum_prices (cart (state st))))).
  now rewrite (Array_reduce_products _ H).
Qed.

Lemma calculateTotalPriceOfCart_throws (st : Store) :
  Exists (fun e => ~ is_product e) (cart (state st)) ->
  calculateTotalPriceOfCart st = (Throw TypeError, st).
Proof.
  intros H. unfold calculateTotalPriceOfCart.
  apply set_Throw. now rewrite (Array_reduce_throws _ H).
Qed.

(** [clearCart] ignores the prior state: it merges the imported constant. *)
Lemma clearCart_merges (st : Store) :
  fst (clearCart st) = Normal tt /\
  state (snd (clearCart st)) = Object_assign (state st) productsInitialState.
Proof. split; reflexivity. Qed.

Lemma clearCart_state (st : Store) :
  fst (clearCart st) = Normal tt /\
  state (snd (clearCart st)) = initialState.
Proof. split; reflexivity. Qed.

(** Every cart either holds products only or has a slot that makes the
    callbacks throw. *)
Lemma cart_products_or_not (l : list CartEntry) :
  Forall is_product l \/ Exists (fun e => ~ is_product e) l.
Proof.
  induction l as [|e rest [IH|IH]].
  - left. constructor.
  - destruct e as [p| |].
    + left. constructor; [exact I | assumption].
    + right. constructor. simpl. tauto.
    + right. constructor. simpl. tauto.
  - right. now constructor 2.
Qed.

(** *** Totality *)

(** On a store whose cart holds only products every action completes
    normally, and the cart still holds only products afterwards when the
    added id is in the catalog. *)
Lemma dispatch_products_Normal (c : Call) (st : Store) :
  Forall is_product (cart (state st)) ->
  fst (dispatch c st) = Normal tt.
Proof.
  intros H. destruct c as [i|i| |]; unfold dispatch.
  - apply addToCart_state.
  - now apply deleteFromCart_products.
  - apply clearCart_state.
  - now apply calculateTotalPriceOfCart_products.
Qed.

Lemma create_empty : create ∅ = Some freshStore.
Proof. unfold create. now rewrite lookup_empty. Qed.

(** *** Persistence: what a reload makes of a stored snapshot *)

Lemma parse_stringify_number (v : Numeric) :
  parse_numeric (stringify_number v) = Some (reloaded_number v).
Proof. destruct v as [[s|s| |s m e]|]; reflexivity. Qed.

Lemma parse_stringify_product (p : Product) :
  parse_product (stringify_product p) = Some (reloaded_product p).
Proof.
  destruct p as [i n v]. unfold parse_product, stringify_product, reloaded_product.
  cbn [get_field String.eqb Ascii.eqb Bool.eqb id name price].
  now rewrite parse_stringify_number.
Qed.

Lemma parse_stringify_entry (e : CartEntry) :
  parse_entry (stringify_entry e) = Some (reloaded_entry e).
Proof.
  destruct e as [p| |]; try reflexivity.
  unfold stringify_entry, reloaded_entry.
  change (parse_entry (stringify_product p))
    with (option_map IsProduct (parse_product (stringify_product p))).
  now rewrite parse_stringify_product.
Qed.

Lemma parse_all_map {A} (stringify_one : A -> json) (parse_one : json -> option A)
  (f : A -> A) (l : list A) :
  (forall a, parse_one (stringify_one a) = Some (f a)) ->
  parse_all parse_one (map stringify_one l) = Some (map f l).
Proof.
  intros H. induction l as [|a rest IH]; simpl; [reflexivity|].
  now rewrite H, IH.
Qed.

Lemma parse_stringify_state (s : State) :
  parse_state (stringify_state s) = Some (spread (reloaded s)).
Proof.
  unfold parse_state, stringify_state, parse_property.
  cbn [get_field String.eqb Ascii.eqb Bool.eqb parse_array].
  rewrite (parse_all_map stringify_product parse_product reloaded_product)
    by apply parse_stringify_product.
  rewrite (parse_all_map stringify_entry parse_entry reloaded_entry)
    by apply parse_stringify_entry.
  now rewrite parse_stringify_number.
Qed.

Lemma parse_stringify_stored (s : State) :
  parse_stored (stringify_stored s) = Some (Some (spread (reloaded s))).
Proof.
  unfold parse_stored, stringify_stored.
  change (get_field "version" _) with (Some (JNumber persist_version)).
  change (get_field "state" _) with (Some (stringify_state s)).
  cbv iota beta. rewrite Z.eqb_refl, parse_stringify_state. reflexivity.
Qed.

(** Creating a store over the storage that [setItem] wrote yields the
    reloaded state. *)
Lemma create_after_setItem (st : Store) :
  create (localStorage (setItem st))
  = Some (mkStore (reloaded (state st)) (localStorage (setItem st))).
Proof.
  unfold create. rewrite lookup_setItem, parse_stringify_stored.
  now rewrite Object_assign_spread.
Qed.

Lemma reloaded_number_same (v : Numeric) : json_exact v -> reloaded_number v = v.
Proof.
  destruct v as [[s|s| |s m e]|]; simpl; try tauto. now intros ->.
Qed.

Lemma reloaded_product_same (p : Product) :
  json_exact (price p) -> reloaded_product p = p.
Proof.
  intros H. destruct p as [i n v]. unfold reloaded_product. cbn in *.
  now rewrite reloaded_number_same.
Qed.

Lemma reloaded_same (s : State) :
  Forall (fun e => e <> Undefined) (cart s) ->
  json_exact_numbers s ->
  reloaded s = s.
Proof.
  intros Hcart (Hps & Hcs & Htot). destruct s as [ps c t]. unfold reloaded. cbn in *.
  f_equal.
  - induction Hps as [|p rest Hp _ IH]; simpl; [reflexivity|].
    now rewrite IH, reloaded_product_same.
  - clear Hps. induction Hcart as [|e rest He _ IH]; simpl; [reflexivity|].
    apply List.Forall_cons_iff in Hcs. destruct Hcs as [Hprice Hrest].
    rewrite IH by assumption. f_equal.
    destruct e as [p| |]; simpl; [|congruence|reflexivity].
    now rewrite reloaded_product_same.
  - now apply reloaded_number_same.
Qed.

(** After an action that completed, [localStorage] holds the text of the
    current state. *)
Lemma set_writes_storage (updater : State -> completion Partial) (st : Store) :
  fst (set updater st) = Normal tt ->
  localStorage (snd (set updater st)) !! persist_name
  = Some (stringify_stored (state (snd (set updater st)))).
Proof.
  unfold set. destruct (updater (state st)) as [next|e]; simpl.
  - intros _. apply lookup_insert_eq.
  - discriminate.
Qed.


(** What [create] reads back after any action that completed. *)
Lemma create_after_set (updater : State -> completion Partial) (st : Store) :
  fst (set updater st) = Normal tt ->
  option_map state (create (localStorage (snd (set updater st))))
  = Some (reloaded (state (snd (set updater st)))).
Proof.
  unfold set. destruct (updater (state st)) as [next|e]; [intros _ | discriminate].
  cbn [snd]. now rewrite create_after_setItem.
Qed.

(** *** The cart keeps holding products as long as the added ids are in
    [products] *)

Lemma dispatch_keeps_products (c : Call) (st : Store) :
  Forall is_product (cart (state st)) ->
  (forall i, c = AddToCart i -> exists q, In q (products (state st)) /\ id q = i) ->
  Forall is_product (cart (state (snd (dispatch c st)))).
Proof.
  intros H Hid. destruct c as [i|i| |]; unfold dispatch.
  - destruct (Hid i eq_refl) as (q & Hq & Hqi).
    destruct (Array_find_hit (fun product => id product =? i) (products (state st)))
      as [p Hp].
    { exists q. split; [assumption|]. now apply Z.eqb_eq. }
    destruct (addToCart_state i st) as [_ ->]. rewrite Hp. simpl.
    apply Forall_app. split; [assumption|]. constructor; [exact I | constructor].
  - destruct (deleteFromCart_products i st H) as [_ ->]. simpl.
    apply List.Forall_forall. intros e He. apply filter_In in He.
    rewrite List.Forall_forall in H. now apply H.
  - destruct (clearCart_state st) as [_ ->]. constructor.
  - now destruct (calculateTotalPriceOfCart_products st H) as [_ ->].
Qed.

(** No action but [clearCart] touches [products]. *)
Lemma actions_frame_products (st : Store) (id0 : Z) :
  products (state (snd (addToCart id0 st))) = products (state st) /\
  products (state (snd (deleteFromCart id0 st))) = products (state st) /\
  products (state (snd (calculateTotalPriceOfCart st))) = products (state st).
Proof.
  split; [|split].
  - now destruct (addToCart_state id0 st) as [_ ->].
  - destruct (cart_products_or_not (cart (state st))) as [H|H].
    + now destruct (deleteFromCart_products id0 st H) as [_ ->].
    + now rewrite (deleteFromCart_throws id0 st H).
  - destruct (cart_products_or_not (cart (state st))) as [H|H].
    + now destruct (calculateTotalPriceOfCart_products st H) as [_ ->].
    + now rewrite (calculateTotalPriceOfCart_throws st H).
Qed.

(** Started over the default catalog with a cart of products, a run of
    catalog events keeps both, so every further action completes. *)
Lemma run_catalog_calls (calls : list Call) (st : Store) :
  products (state st) = products initialState ->
  Forall is_product (cart (state st)) ->
  Forall catalog_call calls ->
  products (state (run calls st)) = products initialState /\
  Forall is_product (cart (state (run calls st))).
Proof.
  intros Hcat Hprod Hcalls. revert st Hcat Hprod.
  induction Hcalls as [|c rest Hc _ IH]; intros st Hcat Hprod; simpl; [auto|].
  apply IH.
  - destruct c as [i|i| |]; unfold dispatch.
    + now destruct (actions_frame_products st i) as (-> & _).
    + now destruct (actions_frame_products st i) as (_ & -> & _).
    + now destruct (clearCart_state st) as [_ ->].
    + now destruct (actions_frame_products st 0) as (_ & _ & ->).
  - apply dispatch_keeps_products; [assumption|].
    intros i ->. simpl in Hc. now rewrite Hcat.
Qed.

Lemma run_catalog_calls_Normal (calls : list Call) (c : Call) :
  Forall catalog_call calls ->
  fst (dispatch c (run calls freshStore)) = Normal tt.
Proof.
  intros H. apply dispatch_products_Normal.
  apply (run_catalog_calls calls freshStore); [reflexivity | constructor | assumption].
Qed.

(** ** Sample runs *)

Example run_add_add_total :
  state (run [AddToCart 1; AddToCart 2; CalculateTotalPriceOfCart] freshStore)
  = {| products := products initialState;
       cart := [IsProduct product1; IsProduct product2];
       totalPriceShoppingCart := 80 |}.
Proof. reflexivity. Qed.

Example run_add_twice_delete :
  cart (state (run [AddToCart 1; AddToCart 2; AddToCart 1; DeleteFromCart 1] freshStore))
  = [IsProduct product2].
Proof. reflexivity. Qed.

Example run_total_is_stale_after_add :
  totalPriceShoppingCart
    (state (run [AddToCart 1; CalculateTotalPriceOfCart; AddToCart 2] freshStore)) = 50.
Proof. reflexivity. Qed.

Example run_clear :
  state (run [AddToCart 5; CalculateTotalPriceOfCart; ClearCart] freshStore) = initialState.
Proof. reflexivity. Qed.

Example stored_after_unknown_add :
  localStorage storeAfterUnknownAdd !! persist_name
  = Some (JObject
            [("state",
              JObject [("products", JArray (map stringify_product (products initialState)));
                       ("cart", JArray [JNull]);
                       ("totalPriceShoppingCart", JDouble 0)]);
             ("version", JNumber 0)]).
Proof. apply lookup_insert_eq. Qed.

Example run_throw_keeps_store :
  run [AddToCart 7; DeleteFromCart 7; CalculateTotalPriceOfCart] freshStore
  = storeAfterUnknownAdd.
Proof. reflexivity. Qed.

Example fractional_prices_round :
  js_add (JSNumber (S754_finite false 7205759403792794 (-56)))
         (JSNumber (S754_finite false 7205759403792794 (-55)))
  = JSNumber (S754_finite false 5404319552844596 (-54)).
Proof. reflexivity. Qed.

Example null_price_counts_as_zero :
  sum_prices [IsProduct product1; IsProduct (mkProduct 9 "restored" JSNull)] = 50.
Proof. reflexivity. Qed.

(** ** Claims *)

(** C1. For an id carried by some product of [products], [addToCart]
    completes normally, and the new cart is the old cart followed by one
    product whose id is the argument: the length grows by exactly one, the
    last element is that product, and the earlier entries are kept in order. *)
Theorem addToCart_known_id (st : Store) (id0 : Z) :
  (exists q, In q (products (state st)) /\ id q = id0) ->
  exists p,
    In p (products (state st)) /\ id p = id0 /\
    fst (addToCart id0 st) = Normal tt /\
    cart (state (snd (addToCart id0 st))) = cart (state st) ++ [IsProduct p] /\
    length (cart (state (snd (addToCart id0 st)))) = S (length (cart (state st))) /\
    List.last (cart (state (snd (addToCart id0 st)))) Undefined = IsProduct p /\
    firstn (length (cart (state st))) (cart (state (snd (addToCart id0 st))))
    = cart (state st).
Proof.
  intros (q & Hin & Hq).
  destruct (Array_find_hit (fun product => id product =? id0) (products (state st)))
    as [p Hp].
  { exists q. split; [assumption|]. now apply Z.eqb_eq. }
  destruct (Array_find_Some _ _ _ Hp) as [Hp_in Hp_id]. apply Z.eqb_eq in Hp_id.
  destruct (addToCart_state id0 st) as [Hok Hst].
  exists p. rewrite Hst, Hp. simpl.
  repeat split; try assumption.
  - rewrite length_app. simpl. lia.
  - apply last_last.
  - rewrite firstn_app, Nat.sub_diag, firstn_all. simpl. apply app_nil_r.
Qed.

Lemma addToCart_known_id_witness :
  (exists q, In q (products (state (storeOfCart [IsProduct product1] 0))) /\ id q = 3) /\
  exists p,
    In p (products (state (storeOfCart [IsProduct product1] 0))) /\ id p = 3 /\
    fst (addToCart 3 (storeOfCart [IsProduct product1] 0)) = Normal tt /\
    cart (state (snd (addToCart 3 (storeOfCart [IsProduct product1] 0))))
    = [IsProduct product1] ++ [IsProduct p] /\
    length (cart (state (snd (addToCart 3 (storeOfCart [IsProduct product1] 0))))) = 2%nat /\
    List.last (cart (state (snd (addToCart 3 (storeOfCart [IsProduct product1] 0))))) Undefined
    = IsProduct p /\
    firstn 1 (cart (state (snd (addToCart 3 (storeOfCart [IsProduct product1] 0)))))
    = [IsProduct product1].
Proof.
  assert (exists q, In q (products (state (storeOfCart [IsProduct product1] 0))) /\ id q = 3)
    as H.
  { exists product3. split; [simpl; tauto | reflexivity]. }
  split; [exact H|].
  exact (addToCart_known_id (storeOfCart [IsProduct product1] 0) 3 H).
Defined.

(** C2. On a cart that contains only products, [deleteFromCart] completes
    normally and the new cart consists of exactly the earlier entries whose
    id differs from the argument, in their original order; the length drops
    by the number of earlier entries whose id equals the argument. *)
Theorem deleteFromCart_removes_all_matching (st : Store) (id0 : Z) :
  Forall is_product (cart (state st)) ->
  fst (deleteFromCart id0 st) = Normal tt /\
  cart (state (snd (deleteFromCart id0 st))) =
    List.filter (fun e => negb (has_id id0 e)) (cart (state st)) /\
  (forall e, In e (cart (state (snd (deleteFromCart id0 st)))) <->
             In e (cart (state st)) /\ has_id id0 e = false) /\
  length (cart (state (snd (deleteFromCart id0 st)))) =
    (length (cart (state st)) - count_id id0 (cart (state st)))%nat /\
  (count_id id0 (cart (state st)) <= length (cart (state st)))%nat.
Proof.
  intros H. destruct (deleteFromCart_products id0 st H) as [Hok Hst].
  rewrite Hst. simpl.
  pose proof (filter_length_count id0 (cart (state st))) as Hlen.
  split; [assumption|]. split; [reflexivity|]. split; [|lia].
  intros e. rewrite filter_In, negb_true_iff. reflexivity.
Qed.

Lemma deleteFromCart_removes_all_matching_witness :
  Forall is_product
    (cart (state (storeOfCart [IsProduct product1; IsProduct product2; IsProduct product1] 0))) /\
  cart (state (snd (deleteFromCart 1
     (storeOfCart [IsProduct product1; IsProduct product2; IsProduct product1] 0))))
  = [IsProduct product2] /\
  length (cart (state (snd (deleteFromCart 1
     (storeOfCart [IsProduct product1; IsProduct product2; IsProduct product1] 0)))))
  = (3 - 2)%nat.
Proof.
  assert (Forall is_product
    (cart (state (storeOfCart [IsProduct product1; IsProduct product2; IsProduct product1] 0))))
    as H by (repeat constructor).
  split; [exact H|].
  destruct (deleteFromCart_removes_all_matching
              (storeOfCart [IsProduct product1; IsProduct product2; IsProduct product1] 0) 1 H)
    as (_ & Hcart & _ & Hlen & _).
  split; [exact Hcart | exact Hlen].
Defined.

(** C3 as stated fails: the cart holds two products priced 9007199254740991
    and 2; the recomputed total is 9007199254740992, which is not the sum
    of the two prices. *)
Lemma calculateTotalPriceOfCart_rounds_counterexample :
  cart (state bigPricesStore) = [IsProduct bigProduct1; IsProduct bigProduct2] /\
  integer_value (price bigProduct1) = Some 9007199254740991 /\
  integer_value (price bigProduct2) = Some 2 /\
  fst (calculateTotalPriceOfCart bigPricesStore) = Normal tt /\
  integer_value (totalPriceShoppingCart (state (snd (calculateTotalPriceOfCart bigPricesStore))))
  = Some 9007199254740992 /\
  9007199254740992 <> 9007199254740991 + 2.
Proof. repeat split. lia. Qed.

(** C3 (amended). On a cart that contains only products,
    [calculateTotalPriceOfCart] completes normally and sets
    [totalPriceShoppingCart] to the [price] fields of the cart entries added
    from left to right, starting from 0, in double-precision arithmetic.
    That is the exact sum of the prices whenever they are integers and they
    and every running sum lie strictly between -2^53 and 2^53; it is 0 for
    the empty cart, and 80 for a cart of two products priced 50 and 30. *)
Theorem calculateTotalPriceOfCart_sums_prices (st : Store) :
  Forall is_product (cart (state st)) ->
  fst (calculateTotalPriceOfCart st) = Normal tt /\
  totalPriceShoppingCart (state (snd (calculateTotalPriceOfCart st))) =
    sum_prices (cart (state st)) /\
  (forall ns : list Z,
     integer_prices (cart (state st)) ns -> safe_sums 0 ns ->
     totalPriceShoppingCart (state (snd (calculateTotalPriceOfCart st))) = exact_sum ns) /\
  (cart (state st) = [] ->
   totalPriceShoppingCart (state (snd (calculateTotalPriceOfCart st))) = 0) /\
  (forall p1 p2,
     cart (state st) = [IsProduct p1; IsProduct p2] -> price p1 = 50 -> price p2 = 30 ->
     totalPriceShoppingCart (state (snd (calculateTotalPriceOfCart st))) = 80).
Proof.
  intros H. destruct (calculateTotalPriceOfCart_products st H) as [Hok Hst].
  rewrite Hst. cbn [totalPriceShoppingCart].
  split; [assumption|]. split; [reflexivity|]. split; [|split].
  - intros ns Hns Hsafe. unfold sum_prices.
    now rewrite (sum_prices_from_exact _ ns Hns 0 Hsafe).
  - intros ->. reflexivity.
  - intros p1 p2 -> H1 H2. unfold sum_prices. cbn [sum_prices_from].
    rewrite H1, H2. reflexivity.
Qed.

Lemma calculateTotalPriceOfCart_sums_prices_witness :
  Forall is_product (cart (state (storeOfCart [IsProduct product1; IsProduct product2] 0))) /\
  totalPriceShoppingCart
    (state (snd (calculateTotalPriceOfCart
                   (storeOfCart [IsProduct product1; IsProduct product2] 0)))) = 80.
Proof.
  assert (Forall is_product
            (cart (state (storeOfCart [IsProduct product1; IsProduct product2] 0))))
    as H by (repeat constructor).
  split; [exact H|].
  destruct (calculateTotalPriceOfCart_sums_prices
              (storeOfCart [IsProduct product1; IsProduct product2] 0) H)
    as (_ & _ & _ & _ & H80).
  exact (H80 product1 product2 eq_refl eq_refl eq_refl).
Defined.

(** C4. Whatever the prior state, [clearCart] completes normally and leaves
    the store with an empty cart, a total of 0 and the default catalog of
    six products. *)
Theorem clearCart_resets (st : Store) :
  fst (clearCart st) = Normal tt /\
  cart (state (snd (clearCart st))) = [] /\
  totalPriceShoppingCart (state (snd (clearCart st))) = 0 /\
  products (state (snd (clearCart st))) = products initialState /\
  map id (products (state (snd (clearCart st)))) = [1; 2; 3; 4; 5; 6] /\
  map price (products (state (snd (clearCart st)))) = [50; 30; 40; 78; 90; 60].
Proof.
  destruct (clearCart_state st) as [Hok Hst].
  rewrite Hst. split; [assumption|]. repeat split.
Qed.

(** C5 (fails on the code). After [addToCart] with an id that is not in
    the catalog the cart holds [undefined]; that store is reachable from a
    fresh one, and on it [deleteFromCart] and [calculateTotalPriceOfCart]
    throw a [TypeError] and leave the store as it was. So not every action
    completes normally on every reachable store. *)
Theorem actions_throw_after_unknown_add :
  reachable storeAfterUnknownAdd /\
  cart (state storeAfterUnknownAdd) = [Undefined] /\
  deleteFromCart 1 storeAfterUnknownAdd = (Throw TypeError, storeAfterUnknownAdd) /\
  calculateTotalPriceOfCart storeAfterUnknownAdd = (Throw TypeError, storeAfterUnknownAdd) /\
  ~ (forall st c, reachable st -> fst (dispatch c st) = Normal tt).
Proof.
  assert (reachable storeAfterUnknownAdd) as Hreach.
  { exists ∅, freshStore, [AddToCart 7]. split; [apply create_empty | reflexivity]. }
  assert (cart (state storeAfterUnknownAdd) = [Undefined]) as Hcart by reflexivity.
  assert (Exists (fun e => ~ is_product e) (cart (state storeAfterUnknownAdd))) as Hbad.
  { rewrite Hcart. constructor. simpl. tauto. }
  pose proof (deleteFromCart_throws 1 _ Hbad) as Hdel.
  split; [assumption|]. split; [assumption|]. split; [assumption|]. split.
  - now apply calculateTotalPriceOfCart_throws.
  - intros Hall. specialize (Hall storeAfterUnknownAdd (DeleteFromCart 1) Hreach).
    unfold dispatch in Hall. rewrite Hdel in Hall. discriminate Hall.
Qed.

(** C6. For an id carried by no product of [products], [addToCart] still
    completes normally and appends exactly one entry, which is [undefined]
    and not a product; the cart is not left unchanged. *)
Theorem addToCart_unknown_id (st : Store) (id0 : Z) :
  (forall p, In p (products (state st)) -> id p <> id0) ->
  fst (addToCart id0 st) = Normal tt /\
  cart (state (snd (addToCart id0 st))) = cart (state st) ++ [Undefined] /\
  length (cart (state (snd (addToCart id0 st)))) = S (length (cart (state st))) /\
  ~ is_product (List.last (cart (state (snd (addToCart id0 st)))) Null) /\
  cart (state (snd (addToCart id0 st))) <> cart (state st).
Proof.
  intros Hmiss.
  assert (Array_find (fun product => id product =? id0) (products (state st)) = None)
    as Hfind.
  { apply Array_find_None. intros p Hp. apply Z.eqb_neq. now apply Hmiss. }
  destruct (addToCart_state id0 st) as [Hok Hst].
  rewrite Hst, Hfind. simpl.
  split; [assumption|]. split; [reflexivity|]. split; [|split].
  - rewrite length_app. simpl. lia.
  - rewrite last_last. simpl. tauto.
  - intros Heq. apply (f_equal (@length CartEntry)) in Heq.
    rewrite length_app in Heq. simpl in Heq. lia.
Qed.

Lemma addToCart_unknown_id_witness :
  (forall p, In p (products (state freshStore)) -> id p <> 7) /\
  fst (addToCart 7 freshStore) = Normal tt /\
  cart (state (snd (addToCart 7 freshStore))) = [] ++ [Undefined].
Proof.
  assert (forall p, In p (products (state freshStore)) -> id p <> 7) as H.
  { intros p Hp. simpl in Hp.
    repeat (destruct Hp as [<-|Hp]; [simpl; lia|]). destruct Hp. }
  split; [exact H|].
  destruct (addToCart_unknown_id freshStore 7 H) as (Hok & Hcart & _).
  split; [exact Hok | exact Hcart].
Defined.

(** C7 (fails on the code). With [undefined] in the cart, as [addToCart]
    leaves it after a lookup miss, no entry has the id 1, yet
    [deleteFromCart 1] throws a [TypeError] instead of completing as a
    no-op. *)
Lemma deleteFromCart_absent_id_counterexample :
  (forall e, In e (cart (state (storeOfCart [Undefined] 0))) -> has_id 1 e = false) /\
  fst (deleteFromCart 1 (storeOfCart [Undefined] 0)) = Throw TypeError /\
  ~ (fst (deleteFromCart 1 (storeOfCart [Undefined] 0)) = Normal tt /\
     state (snd (deleteFromCart 1 (storeOfCart [Undefined] 0)))
     = state (storeOfCart [Undefined] 0)).
Proof.
  split; [|split].
  - intros e [<-|[]]. reflexivity.
  - reflexivity.
  - intros [H _]. discriminate H.
Qed.

(** Where the cart contains only products, none of which has the given id,
    [deleteFromCart] completes normally and the resulting state, cart
    included, equals the prior state. *)
Lemma deleteFromCart_absent_id_noop (st : Store) (id0 : Z) :
  Forall is_product (cart (state st)) ->
  (forall e, In e (cart (state st)) -> has_id id0 e = false) ->
  fst (deleteFromCart id0 st) = Normal tt /\
  state (snd (deleteFromCart id0 st)) = state st /\
  cart (state (snd (deleteFromCart id0 st))) = cart (state st).
Proof.
  intros Hprod Hnone.
  destruct (deleteFromCart_products id0 st Hprod) as [Hok Hst].
  split; [assumption|].
  rewrite Hst, (filter_none_matching id0 _ Hnone). split; [|reflexivity].
  now destruct (state st).
Qed.

(** C8. [addToCart] and [deleteFromCart] leave [products] and
    [totalPriceShoppingCart] as they were (the total is not recomputed),
    and [calculateTotalPriceOfCart] leaves [products] and [cart] as they
    were; this holds of the store after the call whether the action
    completed or threw. *)
Theorem actions_frame (st : Store) (id0 : Z) :
  (products (state (snd (addToCart id0 st))) = products (state st) /\
   totalPriceShoppingCart (state (snd (addToCart id0 st))) =
     totalPriceShoppingCart (state st)) /\
  (products (state (snd (deleteFromCart id0 st))) = products (state st) /\
   totalPriceShoppingCart (state (snd (deleteFromCart id0 st))) =
     totalPriceShoppingCart (state st)) /\
  (products (state (snd (calculateTotalPriceOfCart st))) = products (state st) /\
   cart (state (snd (calculateTotalPriceOfCart st))) = cart (state st)).
Proof.
  split; [|split].
  - destruct (addToCart_state id0 st) as [_ ->]. split; reflexivity.
  - destruct (cart_products_or_not (cart (state st))) as [H|H].
    + destruct (deleteFromCart_products id0 st H) as [_ ->]. split; reflexivity.
    + rewrite (deleteFromCart_throws id0 st H). split; reflexivity.
  - destruct (cart_products_or_not (cart (state st))) as [H|H].
    + destruct (calculateTotalPriceOfCart_products st H) as [_ ->]. split; reflexivity.
    + rewrite (calculateTotalPriceOfCart_throws st H). split; reflexivity.
Qed.

(** C9 as stated fails: the snapshot reached by [addToCart 7] on a fresh
    store holds [undefined] in its cart; it is stored with [null] in that
    slot, and the cart restored from that storage holds [null], not
    [undefined]. It fails as well on a cart of products only: with two
    entries priced at the largest double the recomputed total is
    [Infinity], which is stored as [null] and restored as [null]. *)
Lemma reload_counterexample :
  cart (state storeAfterUnknownAdd) = [Undefined] /\
  option_map state (create (localStorage (setItem storeAfterUnknownAdd)))
  = Some {| products := products initialState;
            cart := [Null];
            totalPriceShoppingCart := 0 |} /\
  option_map state (create (localStorage (setItem storeAfterUnknownAdd)))
  <> Some (state storeAfterUnknownAdd) /\
  Forall is_product (cart (state overflowStore)) /\
  totalPriceShoppingCart (state overflowStore) = JSNumber (S754_infinity false) /\
  option_map (fun st => totalPriceShoppingCart (state st))
    (create (localStorage (setItem overflowStore))) = Some JSNull /\
  option_map state (create (localStorage (setItem overflowStore)))
  <> Some (state overflowStore).
Proof.
  split; [reflexivity|].
  rewrite !create_after_setItem. split; [reflexivity|]. split.
  { intros H. discriminate H. }
  split; [repeat constructor|]. split; [reflexivity|]. split; [reflexivity|].
  intros H. discriminate H.
Qed.

(** C9 (amended). For every snapshot whose cart has no [undefined] slot and
    none of whose numbers (the prices and the total) is NaN, an infinity or
    negative zero, storing it and creating the store again over that
    storage yields the same snapshot: the same products, the same cart and
    the same total. *)
Theorem reload_restores_snapshot (st : Store) :
  Forall (fun e => e <> Undefined) (cart (state st)) ->
  json_exact_numbers (state st) ->
  exists st',
    create (localStorage (setItem st)) = Some st' /\
    state st' = state st /\
    map id (products (state st')) = map id (products (state st)) /\
    cart (state st') = cart (state st) /\
    totalPriceShoppingCart (state st') = totalPriceShoppingCart (state st).
Proof.
  intros H Hnum.
  rewrite create_after_setItem, (reloaded_same _ H Hnum).
  eexists. split; [reflexivity|]. cbn [state]. auto.
Qed.

Lemma reload_restores_snapshot_witness :
  Forall (fun e => e <> Undefined)
    (cart (state (storeOfCart [IsProduct product2; IsProduct product4] 108))) /\
  json_exact_numbers (state (storeOfCart [IsProduct product2; IsProduct product4] 108)) /\
  exists st',
    create (localStorage (setItem (storeOfCart [IsProduct product2; IsProduct product4] 108)))
    = Some st' /\
    state st' = state (storeOfCart [IsProduct product2; IsProduct product4] 108).
Proof.
  assert (Forall (fun e => e <> Undefined)
            (cart (state (storeOfCart [IsProduct product2; IsProduct product4] 108)))) as H.
  { repeat constructor; discriminate. }
  assert (json_exact_numbers
            (state (storeOfCart [IsProduct product2; IsProduct product4] 108))) as Hnum.
  { repeat split; repeat constructor. }
  split; [exact H|]. split; [exact Hnum|].
  destruct (reload_restores_snapshot
              (storeOfCart [IsProduct product2; IsProduct product4] 108) H Hnum)
    as (st' & Hcreate & Hstate & _).
  exists st'. split; [exact Hcreate | exact Hstate].
Defined.

(** C10. When the cart contains only products, none with the given id, and
    the id is the id of a product of [products], [addToCart] followed by
    [deleteFromCart] with that id gives back the original cart (and the
    original state). *)
Theorem addToCart_then_deleteFromCart (st : Store) (id0 : Z) :
  Forall is_product (cart (state st)) ->
  (forall e, In e (cart (state st)) -> has_id id0 e = false) ->
  (exists q, In q (products (state st)) /\ id q = id0) ->
  fst (addToCart id0 st) = Normal tt /\
  fst (deleteFromCart id0 (snd (addToCart id0 st))) = Normal tt /\
  cart (state (snd (deleteFromCart id0 (snd (addToCart id0 st))))) = cart (state st) /\
  state (snd (deleteFromCart id0 (snd (addToCart id0 st)))) = state st.
Proof.
  intros Hprod Hnone (q & Hq_in & Hq_id).
  destruct (Array_find_hit (fun product => id product =? id0) (products (state st)))
    as [p Hp].
  { exists q. split; [assumption|]. now apply Z.eqb_eq. }
  destruct (Array_find_Some _ _ _ Hp) as [_ Hp_id].
  destruct (addToCart_state id0 st) as [Hok Hadd].
  assert (Forall is_product (cart (state (snd (addToCart id0 st))))) as Hprod'.
  { rewrite Hadd, Hp. simpl. apply Forall_app. split; [assumption|].
    constructor; [exact I | constructor]. }
  destruct (deleteFromCart_products id0 _ Hprod') as [Hok' Hdel].
  assert (List.filter (fun e => negb (has_id id0 e))
            (cart (state (snd (addToCart id0 st)))) = cart (state st)) as Hcart.
  { rewrite Hadd, Hp. simpl. rewrite List.filter_app. simpl. rewrite Hp_id. simpl.
    rewrite app_nil_r. now apply filter_none_matching. }
  split; [assumption|]. split; [assumption|].
  rewrite Hdel, Hcart, Hadd. simpl. split; [reflexivity|]. now destruct (state st).
Qed.

Lemma addToCart_then_deleteFromCart_witness :
  Forall is_product (cart (state (storeOfCart [IsProduct product2] 30))) /\
  (forall e, In e (cart (state (storeOfCart [IsProduct product2] 30))) -> has_id 4 e = false) /\
  (exists q, In q (products (state (storeOfCart [IsProduct product2] 30))) /\ id q = 4) /\
  cart (state (snd (deleteFromCart 4 (snd (addToCart 4 (storeOfCart [IsProduct product2] 30))))))
  = cart (state (storeOfCart [IsProduct product2] 30)).
Proof.
  assert (Forall is_product (cart (state (storeOfCart [IsProduct product2] 30)))) as H1
    by (repeat constructor).
  assert (forall e, In e (cart (state (storeOfCart [IsProduct product2] 30))) ->
                    has_id 4 e = false) as H2.
  { intros e [<-|[]]. reflexivity. }
  assert (exists q, In q (products (state (storeOfCart [IsProduct product2] 30))) /\ id q = 4)
    as H3.
  { exists product4. split; [simpl; tauto | reflexivity]. }
  split; [exact H1|]. split; [exact H2|]. split; [exact H3|].
  destruct (addToCart_then_deleteFromCart (storeOfCart [IsProduct product2] 30) 4 H1 H2 H3)
    as (_ & _ & Hcart & _).
  exact Hcart.
Defined.

(** ** Further properties of the actions *)

(** *** Counting and summing over carts *)

Lemma count_id_app (i : Z) (l1 l2 : list CartEntry) :
  count_id i (l1 ++ l2) = (count_id i l1 + count_id i l2)%nat.
Proof.
  induction l1 as [|e rest IH]; simpl; [reflexivity|].
  destruct (has_id i e); simpl; lia.
Qed.

Lemma sum_prices_from_app (acc : Numeric) (l1 l2 : list CartEntry) :
  sum_prices_from acc (l1 ++ l2) = sum_prices_from (sum_prices_from acc l1) l2.
Proof.
  revert acc. induction l1 as [|e rest IH]; intros acc; simpl; [reflexivity|].
  destruct e; apply IH.
Qed.

Lemma has_id_both (i j : Z) (e : CartEntry) :
  has_id i e = true -> has_id j e = true -> i = j.
Proof.
  destruct e as [p| |]; simpl; try discriminate.
  intros Hi Hj. apply Z.eqb_eq in Hi, Hj. congruence.
Qed.

Lemma count_id_filter_same (i : Z) (l : list CartEntry) :
  count_id i (List.filter (fun e => negb (has_id i e)) l) = O.
Proof.
  induction l as [|e rest IH]; simpl; [reflexivity|].
  destruct (has_id i e) eqn:E; simpl; [assumption|]. now rewrite E.
Qed.

Lemma count_id_filter_other (i j : Z) (l : list CartEntry) :
  i <> j ->
  count_id j (List.filter (fun e => negb (has_id i e)) l) = count_id j l.
Proof.
  intros Hne. induction l as [|e rest IH]; simpl; [reflexivity|].
  destruct (has_id i e) eqn:Ei; simpl.
  - destruct (has_id j e) eqn:Ej; [|assumption].
    elim Hne. exact (has_id_both i j e Ei Ej).
  - now rewrite IH.
Qed.

Lemma filter_keeps_products (f : CartEntry -> bool) (l : list CartEntry) :
  Forall is_product l -> Forall is_product (List.filter f l).
Proof.
  induction 1 as [|e rest He _ IH]; simpl; [constructor|].
  destruct (f e); [constructor|]; assumption.
Qed.

Lemma filter_twice (f : CartEntry -> bool) (l : list CartEntry) :
  List.filter f (List.filter f l) = List.filter f l.
Proof.
  induction l as [|e rest IH]; simpl; [reflexivity|].
  destruct (f e) eqn:E; simpl; [rewrite E; f_equal|]; assumption.
Qed.

Lemma filter_swap (f g : CartEntry -> bool) (l : list CartEntry) :
  List.filter f (List.filter g l) = List.filter g (List.filter f l).
Proof.
  induction l as [|e rest IH]; simpl; [reflexivity|].
  destruct (f e) eqn:Ef, (g e) eqn:Eg; simpl; rewrite ?Ef, ?Eg, IH; reflexivity.
Qed.

(** *** The store an action leaves, storage included *)

Lemma set_Normal_store (updater : State -> completion Partial) (st : Store)
  (next : Partial) :
  updater (state st) = Normal next ->
  set updater st
  = (Normal tt,
     {| state := Object_assign (state st) next;
        localStorage :=
          <[persist_name := stringify_stored (Object_assign (state st) next)]>
            (localStorage st) |}).
Proof. intros H. unfold set. now rewrite H. Qed.

Lemma deleteFromCart_store (id0 : Z) (st : Store) :
  Forall is_product (cart (state st)) ->
  deleteFromCart id0 st
  = (Normal tt,
     setItem
       {| state :=
            {| products := products (state st);
               cart := List.filter (fun e => negb (has_id id0 e)) (cart (state st));
               totalPriceShoppingCart := totalPriceShoppingCart (state st) |};
          localStorage := localStorage st |}).
Proof.
  intros H. unfold deleteFromCart.
  rewrite (set_Normal_store _ st
             (override_cart (spread (state st))
                (List.filter (fun e => negb (has_id id0 e)) (cart (state st))))).
  - reflexivity.
  - now rewrite (Array_filter_products id0 _ H).
Qed.

Lemma calculateTotalPriceOfCart_store (st : Store) :
  Forall is_product (cart (state st)) ->
  calculateTotalPriceOfCart st
  = (Normal tt,
     setItem
       {| state :=
            {| products := products (state st);
               cart := cart (state st);
               totalPriceShoppingCart := sum_prices (cart (state st)) |};
          localStorage := localStorage st |}).
Proof.
  intros H. unfold calculateTotalPriceOfCart.
  rewrite (set_Normal_store _ st
             (override_totalPriceShoppingCart (spread (state st))
                (sum_prices (cart (state st))))).
  - reflexivity.
  - now rewrite (Array_reduce_products _ H).
Qed.

Lemma setItem_twice (s1 s2 : State) (ls : gmap string json) :
  setItem (mkStore s2 (localStorage (setItem (mkStore s1 ls)))) = setItem (mkStore s2 ls).
Proof. unfold setItem. simpl. now rewrite insert_insert_eq. Qed.

(** *** [deleteFromCart] *)

(** X1. On a cart of products, deleting the same id a second time changes
    nothing: the second call completes and leaves the store, storage
    included, exactly as the first call left it. *)
Theorem deleteFromCart_idempotent (st : Store) (id0 : Z) :
  Forall is_product (cart (state st)) ->
  deleteFromCart id0 (snd (deleteFromCart id0 st))
  = (Normal tt, snd (deleteFromCart id0 st)).
Proof.
  intros H. rewrite (deleteFromCart_store id0 st H). cbn [snd].
  rewrite deleteFromCart_store.
  - rewrite !state_setItem. cbn [state products cart totalPriceShoppingCart].
    now rewrite setItem_twice, filter_twice.
  - cbn. now apply filter_keeps_products.
Qed.

Lemma deleteFromCart_idempotent_witness :
  Forall is_product (cart (state sampleStore)) /\
  deleteFromCart 1 (snd (deleteFromCart 1 sampleStore))
  = (Normal tt, snd (deleteFromCart 1 sampleStore)).
Proof.
  assert (Forall is_product (cart (state sampleStore))) as H by (repeat constructor).
  split; [exact H|]. exact (deleteFromCart_idempotent sampleStore 1 H).
Defined.

(** X2. On a cart of products, [deleteFromCart] leaves no entry with the
    given id and does not change how many entries any other id has. *)
Theorem deleteFromCart_counts (st : Store) (id0 : Z) :
  Forall is_product (cart (state st)) ->
  count_id id0 (cart (state (snd (deleteFromCart id0 st)))) = O /\
  forall j, j <> id0 ->
    count_id j (cart (state (snd (deleteFromCart id0 st)))) = count_id j (cart (state st)).
Proof.
  intros H. rewrite (deleteFromCart_store id0 st H). cbn [snd]. simpl. split.
  - apply count_id_filter_same.
  - intros j Hj. apply count_id_filter_other. congruence.
Qed.

Lemma deleteFromCart_counts_witness :
  Forall is_product (cart (state sampleStore)) /\
  count_id 1 (cart (state (snd (deleteFromCart 1 sampleStore)))) = O /\
  count_id 2 (cart (state (snd (deleteFromCart 1 sampleStore)))) = 1%nat.
Proof.
  assert (Forall is_product (cart (state sampleStore))) as H by (repeat constructor).
  split; [exact H|].
  destruct (deleteFromCart_counts sampleStore 1 H) as [H0 Hother].
  split; [exact H0|]. apply (Hother 2). discriminate.
Defined.

(** X3. On a cart of products, two deletions commute: deleting [i] then [j]
    leaves the same store, storage included, as deleting [j] then [i]. *)
Theorem deleteFromCart_commute (st : Store) (i j : Z) :
  Forall is_product (cart (state st)) ->
  deleteFromCart i (snd (deleteFromCart j st))
  = deleteFromCart j (snd (deleteFromCart i st)).
Proof.
  intros H.
  rewrite (deleteFromCart_store j st H), (deleteFromCart_store i st H). cbn [snd].
  rewrite !deleteFromCart_store by (cbn; now apply filter_keeps_products).
  rewrite !state_setItem. cbn [state products cart totalPriceShoppingCart].
  now rewrite !setItem_twice, filter_swap.
Qed.

Lemma deleteFromCart_commute_witness :
  Forall is_product (cart (state sampleStore)) /\
  deleteFromCart 1 (snd (deleteFromCart 4 sampleStore))
  = deleteFromCart 4 (snd (deleteFromCart 1 sampleStore)).
Proof.
  assert (Forall is_product (cart (state sampleStore))) as H by (repeat constructor).
  split; [exact H|]. exact (deleteFromCart_commute sampleStore 1 4 H).
Defined.

(** X4. [deleteFromCart] and [calculateTotalPriceOfCart] throw exactly when
    the cart holds a slot that is not a product, whatever the id; and when
    they throw, the store, storage included, is left untouched. *)
Theorem throws_iff_not_product (st : Store) (id0 : Z) :
  (fst (deleteFromCart id0 st) = Throw TypeError <->
   Exists (fun e => ~ is_product e) (cart (state st))) /\
  (fst (calculateTotalPriceOfCart st) = Throw TypeError <->
   Exists (fun e => ~ is_product e) (cart (state st))) /\
  (fst (deleteFromCart id0 st) = Normal tt \/
   deleteFromCart id0 st = (Throw TypeError, st)) /\
  (fst (calculateTotalPriceOfCart st) = Normal tt \/
   calculateTotalPriceOfCart st = (Throw TypeError, st)).
Proof.
  destruct (cart_products_or_not (cart (state st))) as [H|H].
  - assert (~ Exists (fun e => ~ is_product e) (cart (state st))) as Hno.
    { intros Hex. apply List.Exists_exists in Hex. destruct Hex as (e & He & Hne).
      rewrite List.Forall_forall in H. exact (Hne (H e He)). }
    destruct (deleteFromCart_products id0 st H) as [Hd _].
    destruct (calculateTotalPriceOfCart_products st H) as [Hc _].
    rewrite Hd, Hc. repeat split; intros; try discriminate; tauto.
  - rewrite (deleteFromCart_throws id0 st H), (calculateTotalPriceOfCart_throws st H).
    cbn [fst]. repeat split; auto.
Qed.

(** *** [addToCart] *)

Lemma Array_find_first {A} (callback : A -> bool) (l1 l2 : list A) (x : A) :
  (forall y, In y l1 -> callback y = false) ->
  callback x = true ->
  Array_find callback (l1 ++ x :: l2) = Some x.
Proof.
  intros Hl1 Hx. induction l1 as [|y rest IH]; simpl.
  - now rewrite Hx.
  - rewrite (Hl1 y (or_introl eq_refl)). apply IH.
    intros z Hz. apply Hl1. now right.
Qed.

(** X5. Adding an id that [products] carries makes the cart hold one more
    entry with that id (a repeated add gives repeated entries) and leaves
    the number of entries of every other id as it was. *)
Theorem addToCart_counts (st : Store) (id0 : Z) :
  (exists q, In q (products (state st)) /\ id q = id0) ->
  count_id id0 (cart (state (snd (addToCart id0 st))))
  = S (count_id id0 (cart (state st))) /\
  forall j, j <> id0 ->
    count_id j (cart (state (snd (addToCart id0 st)))) = count_id j (cart (state st)).
Proof.
  intros (q & Hin & Hq).
  destruct (Array_find_hit (fun product => id product =? id0) (products (state st)))
    as [p Hp].
  { exists q. split; [assumption|]. now apply Z.eqb_eq. }
  destruct (Array_find_Some _ _ _ Hp) as [_ Hp_id].
  destruct (addToCart_state id0 st) as [_ ->]. rewrite Hp. cbn [cart found].
  split.
  - rewrite count_id_app. simpl. rewrite Hp_id. lia.
  - intros j Hj. rewrite count_id_app. simpl.
    apply Z.eqb_eq in Hp_id. rewrite Hp_id.
    destruct (id0 =? j) eqn:E; [apply Z.eqb_eq in E; congruence | lia].
Qed.

Lemma addToCart_counts_witness :
  (exists q, In q (products (state sampleStore)) /\ id q = 1) /\
  count_id 1 (cart (state (snd (addToCart 1 sampleStore)))) = 3%nat /\
  count_id 2 (cart (state (snd (addToCart 1 sampleStore)))) = 1%nat.
Proof.
  assert (exists q, In q (products (state sampleStore)) /\ id q = 1) as H.
  { exists product1. split; [simpl; tauto | reflexivity]. }
  split; [exact H|].
  destruct (addToCart_counts sampleStore 1 H) as [H1 Hother].
  split; [exact H1|]. apply (Hother 2). discriminate.
Defined.

(** X6. With repeated ids in [products], [addToCart] appends the first
    product that carries the id, not a later one. *)
Theorem addToCart_first_match (st : Store) (before after : list Product) (p : Product) :
  products (state st) = before ++ p :: after ->
  (forall q, In q before -> id q <> id p) ->
  cart (state (snd (addToCart (id p) st))) = cart (state st) ++ [IsProduct p].
Proof.
  intros Hps Hbefore.
  destruct (addToCart_state (id p) st) as [_ ->]. cbn [cart]. rewrite Hps.
  rewrite Array_find_first; [reflexivity | | apply Z.eqb_refl].
  intros q Hq. apply Z.eqb_neq. now apply Hbefore.
Qed.

Lemma addToCart_first_match_witness :
  products (state (mkStore (mkState [product1; product2; mkProduct 2 "other" 5] [] 0) ∅))
  = [product1] ++ product2 :: [mkProduct 2 "other" 5] /\
  (forall q, In q [product1] -> id q <> id product2) /\
  cart (state (snd (addToCart (id product2)
         (mkStore (mkState [product1; product2; mkProduct 2 "other" 5] [] 0) ∅))))
  = [] ++ [IsProduct product2].
Proof.
  assert (forall q, In q [product1] -> id q <> id product2) as H.
  { intros q [<-|[]]. discriminate. }
  split; [reflexivity|]. split; [exact H|].
  exact (addToCart_first_match
           (mkStore (mkState [product1; product2; mkProduct 2 "other" 5] [] 0) ∅)
           [product1] [mkProduct 2 "other" 5] product2 eq_refl H).
Defined.

(** *** [calculateTotalPriceOfCart] *)

(** X7. On a cart of products, adding an id that [products] carries and
    then recomputing gives what the earlier cart sums to with the price of
    the added product added to it last, in double-precision arithmetic;
    the add alone leaves the stored total behind. *)
Theorem addToCart_then_total (st : Store) (id0 : Z) :
  Forall is_product (cart (state st)) ->
  (exists q, In q (products (state st)) /\ id q = id0) ->
  exists p,
    In p (products (state st)) /\ id p = id0 /\
    fst (calculateTotalPriceOfCart (snd (addToCart id0 st))) = Normal tt /\
    totalPriceShoppingCart (state (snd (calculateTotalPriceOfCart (snd (addToCart id0 st)))))
    = js_add (sum_prices (cart (state st))) (price p) /\
    totalPriceShoppingCart (state (snd (addToCart id0 st)))
    = totalPriceShoppingCart (state st).
Proof.
  intros Hprod (q & Hin & Hq).
  destruct (Array_find_hit (fun product => id product =? id0) (products (state st)))
    as [p Hp].
  { exists q. split; [assumption|]. now apply Z.eqb_eq. }
  destruct (Array_find_Some _ _ _ Hp) as [Hp_in Hp_id]. apply Z.eqb_eq in Hp_id.
  destruct (addToCart_state id0 st) as [_ Hadd].
  assert (cart (state (snd (addToCart id0 st))) = cart (state st) ++ [IsProduct p])
    as Hcart by (now rewrite Hadd, Hp).
  assert (Forall is_product (cart (state (snd (addToCart id0 st))))) as Hprod'.
  { rewrite Hcart. apply Forall_app. split; [assumption|].
    constructor; [exact I | constructor]. }
  destruct (calculateTotalPriceOfCart_products _ Hprod') as [Hok ->].
  exists p. cbn [totalPriceShoppingCart]. rewrite Hcart. unfold sum_prices.
  rewrite sum_prices_from_app.
  split; [assumption|]. split; [assumption|]. split; [assumption|]. split.
  - reflexivity.
  - now rewrite Hadd.
Qed.

Lemma addToCart_then_total_witness :
  Forall is_product (cart (state sampleStore)) /\
  (exists q, In q (products (state sampleStore)) /\ id q = 3) /\
  exists p,
    In p (products (state sampleStore)) /\ id p = 3 /\
    fst (calculateTotalPriceOfCart (snd (addToCart 3 sampleStore))) = Normal tt /\
    totalPriceShoppingCart (state (snd (calculateTotalPriceOfCart (snd (addToCart 3 sampleStore)))))
    = js_add (sum_prices (cart (state sampleStore))) (price p) /\
    totalPriceShoppingCart (state (snd (addToCart 3 sampleStore)))
    = totalPriceShoppingCart (state sampleStore).
Proof.
  assert (Forall is_product (cart (state sampleStore))) as H1 by (repeat constructor).
  assert (exists q, In q (products (state sampleStore)) /\ id q = 3) as H2.
  { exists product3. split; [simpl; tauto | reflexivity]. }
  split; [exact H1|]. split; [exact H2|].
  exact (addToCart_then_total sampleStore 3 H1 H2).
Defined.

(** X8. On a cart of products, recomputing the total twice is the same as
    recomputing it once: the second call leaves the store, storage
    included, as the first call left it. *)
Theorem calculateTotalPriceOfCart_idempotent (st : Store) :
  Forall is_product (cart (state st)) ->
  calculateTotalPriceOfCart (snd (calculateTotalPriceOfCart st))
  = (Normal tt, snd (calculateTotalPriceOfCart st)).
Proof.
  intros H. rewrite (calculateTotalPriceOfCart_store st H). cbn [snd].
  rewrite calculateTotalPriceOfCart_store by exact H.
  rewrite !state_setItem. cbn [state products cart totalPriceShoppingCart].
  now rewrite setItem_twice.
Qed.

Lemma calculateTotalPriceOfCart_idempotent_witness :
  Forall is_product (cart (state sampleStore)) /\
  calculateTotalPriceOfCart (snd (calculateTotalPriceOfCart sampleStore))
  = (Normal tt, snd (calculateTotalPriceOfCart sampleStore)).
Proof.
  assert (Forall is_product (cart (state sampleStore))) as H by (repeat constructor).
  split; [exact H|]. exact (calculateTotalPriceOfCart_idempotent sampleStore H).
Defined.

(** *** Persistence *)

Lemma dispatch_is_set (c : Call) : exists updater, dispatch c = set updater.
Proof. destruct c; unfold dispatch; eexists; reflexivity. Qed.

Lemma stringify_reloaded_number (v : Numeric) :
  stringify_number (reloaded_number v) = stringify_number v.
Proof. destruct v as [[s|s| |s m e]|]; reflexivity. Qed.

Lemma stringify_reloaded_product (p : Product) :
  stringify_product (reloaded_product p) = stringify_product p.
Proof.
  unfold stringify_product, reloaded_product. cbn [id name price].
  now rewrite stringify_reloaded_number.
Qed.

Lemma stringify_reloaded_entry (e : CartEntry) :
  stringify_entry (reloaded_entry e) = stringify_entry e.
Proof.
  destruct e as [p| |]; try reflexivity. apply stringify_reloaded_product.
Qed.

Lemma stringify_reloaded (s : State) :
  stringify_stored (reloaded s) = stringify_stored s.
Proof.
  unfold stringify_stored, stringify_state, reloaded. cbn [products cart totalPriceShoppingCart].
  rewrite !List.map_map, stringify_reloaded_number.
  rewrite (List.map_ext _ _ stringify_reloaded_entry).
  now rewrite (List.map_ext _ _ stringify_reloaded_product).
Qed.

Lemma reloaded_number_twice (v : Numeric) :
  reloaded_number (reloaded_number v) = reloaded_number v.
Proof. destruct v as [[s|s| |s m e]|]; reflexivity. Qed.

Lemma reloaded_product_twice (p : Product) :
  reloaded_product (reloaded_product p) = reloaded_product p.
Proof.
  unfold reloaded_product. cbn [id name price]. now rewrite reloaded_number_twice.
Qed.

Lemma reloaded_twice (s : State) : reloaded (reloaded s) = reloaded s.
Proof.
  unfold reloaded. cbn [products cart totalPriceShoppingCart].
  rewrite !List.map_map, reloaded_number_twice. f_equal.
  - apply List.map_ext. apply reloaded_product_twice.
  - apply List.map_ext. intros [p| |]; try reflexivity.
    cbn [reloaded_entry]. now rewrite reloaded_product_twice.
Qed.

Lemma spread_inj (a b : State) : spread a = spread b -> a = b.
Proof. destruct a, b. unfold spread. cbn. congruence. Qed.

(** X9. No action reads or writes any [localStorage] key other than the
    store's own: whatever the action and whether it completes or throws,
    every other key holds what it held. *)
Theorem other_keys_untouched (c : Call) (st : Store) (key : string) :
  key <> persist_name ->
  localStorage (snd (dispatch c st)) !! key = localStorage st !! key.
Proof.
  intros Hkey. destruct (dispatch_is_set c) as [updater ->].
  unfold set. destruct (updater (state st)) as [next|e]; [|reflexivity].
  cbn [snd setItem localStorage]. now apply lookup_insert_ne.
Qed.

Lemma other_keys_untouched_witness :
  "theme" <> persist_name /\
  localStorage (snd (dispatch (AddToCart 2) (mkStore initialState {["theme" := JString "dark"]})))
    !! "theme"
  = localStorage (mkStore initialState {["theme" := JString "dark"]}) !! "theme".
Proof.
  assert ("theme" <> persist_name) as H by discriminate.
  split; [exact H|].
  exact (other_keys_untouched (AddToCart 2)
           (mkStore initialState {["theme" := JString "dark"]}) "theme" H).
Defined.

(** X10. Reloading after any action that completed gives back the very
    store the action left, state and storage, provided the cart it left
    holds no [undefined] and none of the numbers it left (prices and
    total) is NaN, an infinity or negative zero. *)
Theorem reload_after_action (c : Call) (st : Store) :
  fst (dispatch c st) = Normal tt ->
  Forall (fun e => e <> Undefined) (cart (state (snd (dispatch c st)))) ->
  json_exact_numbers (state (snd (dispatch c st))) ->
  create (localStorage (snd (dispatch c st))) = Some (snd (dispatch c st)).
Proof.
  destruct (dispatch_is_set c) as [updater ->].
  unfold set. destruct (updater (state st)) as [next|e]; [|discriminate].
  cbn [fst snd]. intros _ H Hnum. rewrite create_after_setItem.
  rewrite state_setItem in H, Hnum. cbn [state] in *.
  now rewrite (reloaded_same _ H Hnum).
Qed.

Lemma reload_after_action_witness :
  fst (dispatch (AddToCart 2) sampleStore) = Normal tt /\
  Forall (fun e => e <> Undefined) (cart (state (snd (dispatch (AddToCart 2) sampleStore)))) /\
  json_exact_numbers (state (snd (dispatch (AddToCart 2) sampleStore))) /\
  create (localStorage (snd (dispatch (AddToCart 2) sampleStore)))
  = Some (snd (dispatch (AddToCart 2) sampleStore)).
Proof.
  assert (fst (dispatch (AddToCart 2) sampleStore) = Normal tt) as H1 by reflexivity.
  assert (Forall (fun e => e <> Undefined)
            (cart (state (snd (dispatch (AddToCart 2) sampleStore))))) as H2.
  { repeat constructor; discriminate. }
  assert (json_exact_numbers (state (snd (dispatch (AddToCart 2) sampleStore)))) as H3.
  { repeat split; repeat constructor. }
  split; [exact H1|]. split; [exact H2|]. split; [exact H3|].
  exact (reload_after_action (AddToCart 2) sampleStore H1 H2 H3).
Defined.

(** X11. A restored store is stable: whatever snapshot was stored, the
    store created from it is unchanged by storing it again and is what a
    further reload yields. *)
Theorem reload_is_stable (st : Store) :
  exists st1,
    create (localStorage (setItem st)) = Some st1 /\
    setItem st1 = st1 /\
    create (localStorage st1) = Some st1.
Proof.
  assert (setItem (mkStore (reloaded (state st)) (localStorage (setItem st)))
          = mkStore (reloaded (state st)) (localStorage (setItem st))) as Hfix.
  { unfold setItem. cbn [state localStorage].
    now rewrite stringify_reloaded, insert_insert_eq. }
  eexists. split; [apply create_after_setItem|]. split; [exact Hfix|].
  rewrite <- Hfix at 1. rewrite create_after_setItem. cbn [state].
  now rewrite reloaded_twice, Hfix.
Qed.

(** X12. The stored text determines the snapshot up to what a reload
    reads back and no further: two snapshots are stored as the same
    document exactly when they agree once every [undefined] slot, every
    NaN and every infinity is read as [null] and negative zero as zero. *)
Theorem stored_text_determines_snapshot (s1 s2 : State) :
  stringify_stored s1 = stringify_stored s2 <-> reloaded s1 = reloaded s2.
Proof.
  split; intros H.
  - assert (Some (Some (spread (reloaded s1))) = Some (Some (spread (reloaded s2))))
      as Heq by (now rewrite <- !parse_stringify_stored, H).
    apply spread_inj. congruence.
  - now rewrite <- (stringify_reloaded s1), <- (stringify_reloaded s2), H.
Qed.

(** X13. A cart slot that is not a product survives a reload: the store
    restored from such a snapshot still has one, so [deleteFromCart] and
    [calculateTotalPriceOfCart] throw on it as well. *)
Theorem broken_cart_survives_reload (st : Store) (id0 : Z) :
  Exists (fun e => ~ is_product e) (cart (state st)) ->
  exists st',
    create (localStorage (setItem st)) = Some st' /\
    Exists (fun e => ~ is_product e) (cart (state st')) /\
    deleteFromCart id0 st' = (Throw TypeError, st') /\
    calculateTotalPriceOfCart st' = (Throw TypeError, st').
Proof.
  intros H. eexists. split; [apply create_after_setItem|].
  assert (Exists (fun e => ~ is_product e) (map reloaded_entry (cart (state st)))) as H'.
  { apply List.Exists_exists in H. destruct H as (e & He & Hne).
    apply List.Exists_exists. exists (reloaded_entry e).
    split; [now apply in_map | now destruct e]. }
  split; [exact H'|]. split.
  - now apply deleteFromCart_throws.
  - now apply calculateTotalPriceOfCart_throws.
Qed.

Lemma broken_cart_survives_reload_witness :
  Exists (fun e => ~ is_product e) (cart (state storeAfterUnknownAdd)) /\
  exists st',
    create (localStorage (setItem storeAfterUnknownAdd)) = Some st' /\
    Exists (fun e => ~ is_product e) (cart (state st')) /\
    deleteFromCart 1 st' = (Throw TypeError, st') /\
    calculateTotalPriceOfCart st' = (Throw TypeError, st').
Proof.
  assert (Exists (fun e => ~ is_product e) (cart (state storeAfterUnknownAdd))) as H.
  { constructor. simpl. tauto. }
  split; [exact H|]. exact (broken_cart_survives_reload storeAfterUnknownAdd 1 H).
Defined.

(** *** Runs *)

Lemma from_products_is_product (ps : list Product) (l : list CartEntry) :
  Forall (from_products ps) l -> Forall is_product l.
Proof.
  apply List.Forall_impl. intros [p| |]; simpl; tauto.
Qed.

Lemma dispatch_keeps_from_products (c : Call) (st : Store) :
  Forall (from_products (products (state st))) (cart (state st)) ->
  known_call (products (state st)) c ->
  Forall (from_products (products (state st))) (cart (state (snd (dispatch c st)))) /\
  products (state (snd (dispatch c st))) = products (state st).
Proof.
  intros Hinv Hc.
  pose proof (from_products_is_product _ _ Hinv) as Hprod.
  destruct c as [i|i| |]; unfold dispatch; simpl in Hc.
  - destruct Hc as (q & Hq & Hqi).
    destruct (Array_find_hit (fun product => id product =? i) (products (state st)))
      as [p Hp].
    { exists q. split; [assumption|]. now apply Z.eqb_eq. }
    destruct (Array_find_Some _ _ _ Hp) as [Hp_in _].
    destruct (addToCart_state i st) as [_ ->]. rewrite Hp. cbn [cart products found].
    split; [|reflexivity]. apply Forall_app. split; [assumption|].
    constructor; [exact Hp_in | constructor].
  - destruct (deleteFromCart_products i st Hprod) as [_ ->]. cbn [cart products].
    split; [|reflexivity]. apply List.Forall_forall. intros e He.
    apply filter_In in He. rewrite List.Forall_forall in Hinv. now apply Hinv.
  - contradiction.
  - destruct (calculateTotalPriceOfCart_products st Hprod) as [_ ->].
    cbn [cart products]. now split.
Qed.

(** X14. As long as every cart entry is a product of [products], a run of
    adds of known ids, deletes and recomputes keeps it so and keeps
    [products] as it was; every action completes on the store it reaches. *)
Theorem run_keeps_cart_in_products (calls : list Call) (st : Store) :
  Forall (from_products (products (state st))) (cart (state st)) ->
  Forall (known_call (products (state st))) calls ->
  Forall (from_products (products (state st))) (cart (state (run calls st))) /\
  products (state (run calls st)) = products (state st) /\
  forall c, fst (dispatch c (run calls st)) = Normal tt.
Proof.
  intros Hinv Hcalls. revert st Hinv Hcalls.
  induction calls as [|c rest IH]; intros st Hinv Hcalls; cbn [run].
  - split; [assumption|]. split; [reflexivity|].
    intros c. apply dispatch_products_Normal.
    exact (from_products_is_product _ _ Hinv).
  - apply List.Forall_cons_iff in Hcalls. destruct Hcalls as [Hc Hrest].
    destruct (dispatch_keeps_from_products c st Hinv Hc) as [Hinv' Hps].
    rewrite <- Hps in Hinv', Hrest |- *. now apply IH.
Qed.

Lemma run_keeps_cart_in_products_witness :
  Forall (from_products (products (state freshStore))) (cart (state freshStore)) /\
  Forall (known_call (products (state freshStore)))
    [AddToCart 2; AddToCart 2; DeleteFromCart 5; CalculateTotalPriceOfCart] /\
  fst (dispatch (DeleteFromCart 2)
         (run [AddToCart 2; AddToCart 2; DeleteFromCart 5; CalculateTotalPriceOfCart]
            freshStore)) = Normal tt.
Proof.
  assert (Forall (from_products (products (state freshStore))) (cart (state freshStore)))
    as H1 by constructor.
  assert (Forall (known_call (products (state freshStore)))
            [AddToCart 2; AddToCart 2; DeleteFromCart 5; CalculateTotalPriceOfCart]) as H2.
  { assert (known_call (products (state freshStore)) (AddToCart 2)) as Ha.
    { exists product2. split; [simpl; tauto | reflexivity]. }
    repeat constructor; exact Ha. }
  split; [exact H1|]. split; [exact H2|].
  destruct (run_keeps_cart_in_products
              [AddToCart 2; AddToCart 2; DeleteFromCart 5; CalculateTotalPriceOfCart]
              freshStore H1 H2) as (_ & _ & Hall).
  exact (Hall (DeleteFromCart 2)).
Defined.

(** X15. Once a cart slot is not a product, only [clearCart] gets rid of
    it: along any run without [clearCart] the deletes and recomputes have
    no effect at all, so the run leaves the very store that its adds alone
    leave; the cart is the earlier cart followed by exactly what those
    adds append, the slot is still there, and [products] and the total
    stay as they were. *)
Theorem broken_cart_until_clear (calls : list Call) (st : Store) :
  Exists (fun e => ~ is_product e) (cart (state st)) ->
  Forall (fun c => c <> ClearCart) calls ->
  run calls st = run (adds_of calls) st /\
  cart (state (run calls st))
  = cart (state st) ++ appended (products (state st)) calls /\
  Exists (fun e => ~ is_product e) (cart (state (run calls st))) /\
  products (state (run calls st)) = products (state st) /\
  totalPriceShoppingCart (state (run calls st)) = totalPriceShoppingCart (state st).
Proof.
  intros Hbad Hcalls. revert st Hbad.
  induction Hcalls as [|c rest Hc _ IH]; intros st Hbad.
  - cbn [run adds_of List.filter appended flat_map]. rewrite app_nil_r. auto.
  - destruct c as [i|i| |]; cbn [run adds_of List.filter appended flat_map];
      unfold dispatch; fold (adds_of rest);
      fold (appended (products (state st)) rest).
    + destruct (addToCart_state i st) as [_ Hadd].
      destruct (IH (snd (addToCart i st))) as (Hrun & Hcart & Hbad' & Hps & Htot).
      { rewrite Hadd. cbn [cart]. apply List.Exists_app. now left. }
      rewrite Hadd in Hcart, Hps, Htot. cbn [cart products totalPriceShoppingCart] in *.
      split; [exact Hrun|]. split; [|auto].
      rewrite Hcart, <- app_assoc. reflexivity.
    + rewrite (deleteFromCart_throws i st Hbad). cbn [snd app]. now apply IH.
    + contradiction.
    + rewrite (calculateTotalPriceOfCart_throws st Hbad). cbn [snd app]. now apply IH.
Qed.

Lemma broken_cart_until_clear_witness :
  Exists (fun e => ~ is_product e) (cart (state storeAfterUnknownAdd)) /\
  Forall (fun c => c <> ClearCart) [DeleteFromCart 7; AddToCart 1; CalculateTotalPriceOfCart] /\
  run [DeleteFromCart 7; AddToCart 1; CalculateTotalPriceOfCart] storeAfterUnknownAdd
  = run [AddToCart 1] storeAfterUnknownAdd /\
  cart (state (run [DeleteFromCart 7; AddToCart 1; CalculateTotalPriceOfCart]
                 storeAfterUnknownAdd))
  = [Undefined; IsProduct product1] /\
  totalPriceShoppingCart
    (state (run [DeleteFromCart 7; AddToCart 1; CalculateTotalPriceOfCart]
              storeAfterUnknownAdd))
  = totalPriceShoppingCart (state storeAfterUnknownAdd).
Proof.
  assert (Exists (fun e => ~ is_product e) (cart (state storeAfterUnknownAdd))) as H1.
  { constructor. simpl. tauto. }
  assert (Forall (fun c => c <> ClearCart)
            [DeleteFromCart 7; AddToCart 1; CalculateTotalPriceOfCart]) as H2.
  { repeat constructor; discriminate. }
  split; [exact H1|]. split; [exact H2|].
  destruct (broken_cart_until_clear
              [DeleteFromCart 7; AddToCart 1; CalculateTotalPriceOfCart]
              storeAfterUnknownAdd H1 H2) as (Hrun & Hcart & _ & _ & Htot).
  split; [exact Hrun|]. split; [exact Hcart | exact Htot].
Defined.

Lemma actions_frame_total (st : Store) (id0 : Z) :
  totalPriceShoppingCart (state (snd (addToCart id0 st)))
  = totalPriceShoppingCart (state st) /\
  totalPriceShoppingCart (state (snd (deleteFromCart id0 st)))
  = totalPriceShoppingCart (state st).
Proof.
  split.
  - now destruct (addToCart_state id0 st) as [_ ->].
  - destruct (cart_products_or_not (cart (state st))) as [H|H].
    + now destruct (deleteFromCart_products id0 st H) as [_ ->].
    + now rewrite (deleteFromCart_throws id0 st H).
Qed.

(** X16. From any store, a run without [clearCart] never changes
    [products]; and if it has no recompute either, the stored total is
    never changed, however the cart changes. *)
Theorem run_frame (calls : list Call) (st : Store) :
  Forall (fun c => c <> ClearCart) calls ->
  products (state (run calls st)) = products (state st) /\
  (Forall (fun c => c <> CalculateTotalPriceOfCart) calls ->
   totalPriceShoppingCart (state (run calls st)) = totalPriceShoppingCart (state st)).
Proof.
  intros Hcalls. revert st.
  induction Hcalls as [|c rest Hc _ IH]; intros st; cbn [run]; [auto|].
  destruct (IH (snd (dispatch c st))) as [Hps Htot].
  split.
  - rewrite Hps. destruct c as [i|i| |]; unfold dispatch; try contradiction.
    + now destruct (actions_frame_products st i) as (-> & _).
    + now destruct (actions_frame_products st i) as (_ & -> & _).
    + now destruct (actions_frame_products st 0) as (_ & _ & ->).
  - intros Hnocalc. apply List.Forall_cons_iff in Hnocalc.
    destruct Hnocalc as [Hc' Hrest]. rewrite (Htot Hrest).
    destruct c as [i|i| |]; unfold dispatch; try contradiction.
    + now destruct (actions_frame_total st i) as (-> & _).
    + now destruct (actions_frame_total st i) as (_ & ->).
Qed.

Lemma run_frame_witness :
  Forall (fun c => c <> ClearCart) [AddToCart 3; DeleteFromCart 1; AddToCart 9] /\
  products (state (run [AddToCart 3; DeleteFromCart 1; AddToCart 9] sampleStore))
  = products (state sampleStore) /\
  totalPriceShoppingCart (state (run [AddToCart 3; DeleteFromCart 1; AddToCart 9] sampleStore))
  = totalPriceShoppingCart (state sampleStore).
Proof.
  assert (Forall (fun c => c <> ClearCart) [AddToCart 3; DeleteFromCart 1; AddToCart 9])
    as H1 by (repeat constructor; discriminate).
  assert (Forall (fun c => c <> CalculateTotalPriceOfCart)
            [AddToCart 3; DeleteFromCart 1; AddToCart 9])
    as H2 by (repeat constructor; discriminate).
  split; [exact H1|].
  destruct (run_frame [AddToCart 3; DeleteFromCart 1; AddToCart 9] sampleStore H1)
    as [Hps Htot].
  split; [exact Hps | exact (Htot H2)].
Defined.

(** *** Totals when ids are unique *)








(** *** Adds *)

Lemma addToCart_store (id0 : Z) (st : Store) :
  addToCart id0 st
  = (Normal tt,
     setItem
       {| state :=
            {| products := products (state st);
               cart := cart (state st) ++
                       [found (Array_find (fun product => id product =? id0)
                                 (products (state st)))];
               totalPriceShoppingCart := totalPriceShoppingCart (state st) |};
          localStorage := localStorage st |}).
Proof. reflexivity. Qed.

(** X18. A run made of adds only, known ids or not, lengthens the cart by
    exactly one entry per add and keeps the earlier entries in front, in
    order. *)
Theorem run_of_adds (calls : list Call) (st : Store) :
  Forall (fun c => exists i, c = AddToCart i) calls ->
  length (cart (state (run calls st))) = (length (cart (state st)) + length calls)%nat /\
  firstn (length (cart (state st))) (cart (state (run calls st))) = cart (state st).
Proof.
  intros Hcalls. revert st.
  induction Hcalls as [|c rest (i & ->) _ IH]; intros st; cbn [run].
  - rewrite firstn_all. split; [simpl; lia | reflexivity].
  - destruct (IH (snd (dispatch (AddToCart i) st))) as [Hlen Hfirst].
    unfold dispatch in *. rewrite addToCart_store in *. cbn [snd] in *.
    rewrite state_setItem in *. cbn [state cart] in *.
    rewrite length_app in *. cbn [length] in *. split; [lia|].
    apply (f_equal (firstn (length (cart (state st))))) in Hfirst.
    rewrite firstn_firstn in Hfirst.
    replace (Init.Nat.min (length (cart (state st))) (length (cart (state st)) + 1))
      with (length (cart (state st))) in Hfirst by lia.
    rewrite Hfirst, firstn_app, Nat.sub_diag, firstn_all. simpl. apply app_nil_r.
Qed.

Lemma run_of_adds_witness :
  Forall (fun c => exists i, c = AddToCart i) [AddToCart 2; AddToCart 9; AddToCart 2] /\
  length (cart (state (run [AddToCart 2; AddToCart 9; AddToCart 2] sampleStore)))
  = (length (cart (state sampleStore)) + 3)%nat /\
  firstn (length (cart (state sampleStore)))
    (cart (state (run [AddToCart 2; AddToCart 9; AddToCart 2] sampleStore)))
  = cart (state sampleStore).
Proof.
  assert (Forall (fun c => exists i, c = AddToCart i) [AddToCart 2; AddToCart 9; AddToCart 2])
    as H by (repeat constructor; eexists; reflexivity).
  split; [exact H|].
  exact (run_of_adds [AddToCart 2; AddToCart 9; AddToCart 2] sampleStore H).
Defined.

(** X19. On a cart of products, adding a known id and deleting a different
    id commute: either order leaves the same store, storage included. *)
Theorem addToCart_deleteFromCart_commute (st : Store) (i j : Z) :
  Forall is_product (cart (state st)) ->
  (exists q, In q (products (state st)) /\ id q = i) ->
  i <> j ->
  deleteFromCart j (snd (addToCart i st)) = addToCart i (snd (deleteFromCart j st)).
Proof.
  intros Hprod (q & Hin & Hq) Hne.
  destruct (Array_find_hit (fun product => id product =? i) (products (state st)))
    as [p Hp].
  { exists q. split; [assumption|]. now apply Z.eqb_eq. }
  destruct (Array_find_Some _ _ _ Hp) as [_ Hp_id]. apply Z.eqb_eq in Hp_id.
  rewrite (deleteFromCart_store j st Hprod). cbn [snd].
  rewrite !addToCart_store. cbn [snd].
  rewrite deleteFromCart_store.
  - rewrite !state_setItem. cbn [state products cart totalPriceShoppingCart].
    rewrite !setItem_twice, Hp, List.filter_app. cbn [found List.filter has_id].
    rewrite Hp_id. apply Z.eqb_neq in Hne. now rewrite Hne.
  - rewrite state_setItem. cbn [state cart]. rewrite Hp.
    apply Forall_app. split; [assumption|]. constructor; [exact I | constructor].
Qed.

Lemma addToCart_deleteFromCart_commute_witness :
  Forall is_product (cart (state sampleStore)) /\
  (exists q, In q (products (state sampleStore)) /\ id q = 3) /\
  3 <> 1 /\
  deleteFromCart 1 (snd (addToCart 3 sampleStore))
  = addToCart 3 (snd (deleteFromCart 1 sampleStore)).
Proof.
  assert (Forall is_product (cart (state sampleStore))) as H1 by (repeat constructor).
  assert (exists q, In q (products (state sampleStore)) /\ id q = 3) as H2.
  { exists product3. split; [simpl; tauto | reflexivity]. }
  assert (3 <> 1) as H3 by discriminate.
  split; [exact H1|]. split; [exact H2|]. split; [exact H3|].
  exact (addToCart_deleteFromCart_commute sampleStore 3 1 H1 H2 H3).
Defined.

Lemma run_app (calls1 calls2 : list Call) (st : Store) :
  run (calls1 ++ calls2) st = run calls2 (run calls1 st).
Proof.
  revert st. induction calls1 as [|c rest IH]; intros st; simpl; [reflexivity|].
  apply IH.
Qed.

Lemma run_repeat_add (n : nat) (id0 : Z) (st : Store) :
  state (run (repeat (AddToCart id0) n) st)
  = {| products := products (state st);
       cart := cart (state st) ++
               repeat (found (Array_find (fun product => id product =? id0)
                                (products (state st)))) n;
       totalPriceShoppingCart := totalPriceShoppingCart (state st) |}.
Proof.
  revert st. induction n as [|n IH]; intros st; cbn [repeat run].
  - rewrite app_nil_r. now destruct (state st).
  - rewrite IH. unfold dispatch. rewrite addToCart_store. cbn [snd].
    rewrite state_setItem. cbn [state products cart totalPriceShoppingCart].
    now rewrite <- app_assoc.
Qed.

Lemma filter_repeat_matching (id0 : Z) (p : Product) (n : nat) :
  id p = id0 ->
  List.filter (fun e => negb (has_id id0 e)) (repeat (IsProduct p) n) = [].
Proof.
  intros Hp. induction n as [|n IH]; simpl; [reflexivity|].
  apply Z.eqb_eq in Hp. now rewrite Hp.
Qed.

(** X20. However many times an id is added, one [deleteFromCart] undoes
    all of the adds: on a cart of products none of which has the id, any
    number of adds of a known id followed by one delete of it gives back
    the original state. *)
Theorem adds_then_deleteFromCart (st : Store) (id0 : Z) (n : nat) :
  Forall is_product (cart (state st)) ->
  (forall e, In e (cart (state st)) -> has_id id0 e = false) ->
  (exists q, In q (products (state st)) /\ id q = id0) ->
  state (run (repeat (AddToCart id0) n ++ [DeleteFromCart id0]) st) = state st.
Proof.
  intros Hprod Hnone (q & Hin & Hq).
  destruct (Array_find_hit (fun product => id product =? id0) (products (state st)))
    as [p Hp].
  { exists q. split; [assumption|]. now apply Z.eqb_eq. }
  destruct (Array_find_Some _ _ _ Hp) as [_ Hp_id]. apply Z.eqb_eq in Hp_id.
  rewrite run_app. cbn [run]. unfold dispatch.
  pose proof (run_repeat_add n id0 st) as Hrun. rewrite Hp in Hrun. cbn [found] in Hrun.
  assert (Forall is_product (cart (state (run (repeat (AddToCart id0) n) st)))) as Hprod'.
  { rewrite Hrun. cbn [cart]. apply Forall_app. split; [assumption|].
    apply List.Forall_forall. intros e He. apply repeat_spec in He. now subst e. }
  destruct (deleteFromCart_products id0 _ Hprod') as [_ ->].
  rewrite Hrun. cbn [products cart totalPriceShoppingCart].
  rewrite List.filter_app, (filter_none_matching id0 _ Hnone),
    (filter_repeat_matching id0 p n Hp_id), app_nil_r.
  now destruct (state st).
Qed.

Lemma adds_then_deleteFromCart_witness :
  Forall is_product (cart (state sampleStore)) /\
  (forall e, In e (cart (state sampleStore)) -> has_id 3 e = false) /\
  (exists q, In q (products (state sampleStore)) /\ id q = 3) /\
  state (run (repeat (AddToCart 3) 5 ++ [DeleteFromCart 3]) sampleStore) = state sampleStore.
Proof.
  assert (Forall is_product (cart (state sampleStore))) as H1 by (repeat constructor).
  assert (forall e, In e (cart (state sampleStore)) -> has_id 3 e = false) as H2.
  { intros e He. simpl in He.
    repeat (destruct He as [<-|He]; [reflexivity|]). destruct He. }
  assert (exists q, In q (products (state sampleStore)) /\ id q = 3) as H3.
  { exists product3. split; [simpl; tauto | reflexivity]. }
  split; [exact H1|]. split; [exact H2|]. split; [exact H3|].
  exact (adds_then_deleteFromCart sampleStore 3 5 H1 H2 H3).
Defined.
